(** * LinkedIn posting agent: the progress store, the three workflow nodes
      and the orchestrating graph, embedded from the Python sources.

    Conventions of the embedding.
    - A Python [str] is a [string]; every character is one code point below
      256, and [len] counts characters.
    - A Python [int] is a [Z].
    - The two JSON files of the store are records; [update_state] takes its
      keyword arguments as a record of optional fields.
    - The language model, the console, the publishing API and the clock are
      the outside world: the first, third and fourth are oracles indexed by
      the number of calls made so far, the console is the list of lines
      still to be read ([input()] on an empty list raises [EOFError]).
    - Code that raises or mutates runs in the monad [M] over [World]. *)

From Stdlib Require Import ZArith List String Ascii Bool Lia.
From Stdlib Require Import Floats Uint63 DecimalString.
From Stdlib Require DecimalPos DecimalZ.
Import ListNotations.

Open Scope string_scope.
Open Scope Z_scope.

(* ================================================================== *)
(** ** Python strings *)

Module PyStr.

Definition len (s : string) : Z := Z.of_nat (String.length s).

Fixpoint take (n : nat) (s : string) : string :=
  match n, s with
  | S k, String c s' => String c (take k s')
  | _, _ => EmptyString
  end.

Fixpoint drop (n : nat) (s : string) : string :=
  match n, s with
  | S k, String _ s' => drop k s'
  | _, _ => s
  end.

(** A slice bound as Python resolves it: a negative bound counts from the
    end, and the result is clamped to [0 .. len s]. *)
Definition bound (k : Z) (s : string) : nat :=
  Z.to_nat (if k <? 0 then len s + k else k).

(** [s[:k]] *)
Definition slice_to (k : Z) (s : string) : string := take (bound k s) s.

(** [s[k:]] *)
Definition slice_from (k : Z) (s : string) : string := drop (bound k s) s.

(** [sub in s] *)
Fixpoint contains (sub s : string) : bool :=
  prefix sub s ||
  match s with
  | EmptyString => false
  | String _ s' => contains sub s'
  end.

(** [s.rfind(sub)]: the scan keeps the highest index seen so far at which
    [sub] starts; [-1] when there is none. *)
Fixpoint rfind_from (sub s : string) (i acc : Z) : Z :=
  let acc' := if prefix sub s then i else acc in
  match s with
  | EmptyString => acc'
  | String _ s' => rfind_from sub s' (i + 1) acc'
  end.

Definition rfind (s sub : string) : Z := rfind_from sub s 0 (-1).

Definition code (c : ascii) : N := N_of_ascii c.

(** [str.isspace] on the code points below 256. *)
Definition isspace (c : ascii) : bool :=
  let n := code c in
  ((9 <=? n) && (n <=? 13) || (28 <=? n) && (n <=? 32)
   || (n =? 133) || (n =? 160))%N.

Fixpoint lstrip (s : string) : string :=
  match s with
  | String c s' => if isspace c then lstrip s' else s
  | EmptyString => EmptyString
  end.

Fixpoint rstrip (s : string) : string :=
  match s with
  | EmptyString => EmptyString
  | String c s' =>
      match rstrip s' with
      | EmptyString => if isspace c then EmptyString else String c EmptyString
      | r => String c r
      end
  end.

(** [s.strip()] *)
Definition strip (s : string) : string := rstrip (lstrip s).

Definition is_upper (c : ascii) : bool :=
  let n := code c in
  ((65 <=? n) && (n <=? 90)
   || (192 <=? n) && (n <=? 222) && negb (n =? 215))%N.

Definition is_lower (c : ascii) : bool :=
  let n := code c in
  ((97 <=? n) && (n <=? 122)
   || (224 <=? n) && (n <=? 254) && negb (n =? 247))%N.

Definition lower_char (c : ascii) : ascii :=
  if is_upper c then ascii_of_N (code c + 32) else c.

(** The three characters below 256 whose upper case lies outside that
    range (181, 223, 255) are left in place: none of them is an ASCII
    letter before or after the conversion. *)
Definition upper_char (c : ascii) : ascii :=
  if is_lower c then ascii_of_N (code c - 32) else c.

Fixpoint map_chars (f : ascii -> ascii) (s : string) : string :=
  match s with
  | EmptyString => EmptyString
  | String c s' => String (f c) (map_chars f s')
  end.

(** [s.lower()] and [s.upper()] *)
Definition lower : string -> string := map_chars lower_char.
Definition upper : string -> string := map_chars upper_char.

(** [str(n)] for an integer. *)
Definition of_int (n : Z) : string := NilZero.string_of_int (Z.to_int n).

(** [sep.join(parts)] *)
Definition join (sep : string) (parts : list string) : string :=
  String.concat sep parts.

(** A string is truthy when it is not empty. *)
Definition truthy (s : string) : bool := negb (s =? "")%string.

Fixpoint replicate (n : nat) (c : ascii) : string :=
  match n with
  | O => EmptyString
  | S k => String c (replicate k c)
  end.

(** The character at index [i], if any. *)
Definition at_index (s : string) (i : Z) : option ascii :=
  if i <? 0 then None else String.get (Z.to_nat i) s.

Definition newline : ascii := ascii_of_N 10.
Definition nl : string := String newline EmptyString.

End PyStr.

(** Python's [int * float] and [int > float] on binary64, for integers a
    double represents exactly (below [2^53] in absolute value). *)
Module PyFloat.

Definition of_int (z : Z) : float :=
  if z <? 0 then PrimFloat.opp (PrimFloat.of_uint63 (Uint63.of_Z (- z)))
  else PrimFloat.of_uint63 (Uint63.of_Z z).

Definition int_mul_float (z : Z) (f : float) : float :=
  PrimFloat.mul (of_int z) f.

Definition int_gt_float (z : Z) (f : float) : bool :=
  PrimFloat.ltb f (of_int z).

(** The literal [0.7]: the double nearest to seven tenths. *)
Definition seven_tenths : float :=
  PrimFloat.div (of_int 7) (of_int 10).

End PyFloat.

(* ================================================================== *)
(** ** config/settings.py *)

Definition TOTAL_DAYS : Z := 90.
Definition MAX_POST_LENGTH : Z := 3000.
Definition MIN_POST_LENGTH : Z := 500.
Definition HASHTAG_COUNT : Z := 5.

(* ================================================================== *)
(** ** src/utils/storage.py *)

Record CurriculumEntry := {
  c_day : Z;
  c_topic : string;
  c_category : string;
  c_difficulty : string;
  c_key_points : list string;
  c_story_angle : string
}.

Record PostedItem := {
  p_day : Z;
  p_topic : string;
  p_content : string;
  p_linkedin_post_id : option string;
  p_posted_at : string;
  p_char_count : Z
}.

Record HistoryFile := {
  posted_items : list PostedItem;
  last_updated : option string;
  total_posts : Z
}.

Record PendingApproval := {
  pa_content : string;
  pa_day : Z;
  pa_topic : string;
  pa_approved_at : string
}.

Record StateFile := {
  current_day : Z;
  started_at : option string;
  last_post_date : option string;
  pending_approval : option PendingApproval;
  status : string
}.

(** The three files under the data directory. *)
Record Files := {
  curriculum_file : list CurriculumEntry;
  history_file : HistoryFile;
  state_file : StateFile
}.

(** The keyword arguments [update_state] is called with: [None] for a key
    that is not passed. *)
Record Kwargs := {
  kw_current_day : option Z;
  kw_started_at : option (option string);
  kw_last_post_date : option (option string);
  kw_pending_approval : option (option PendingApproval);
  kw_status : option string
}.

Definition no_kwargs : Kwargs :=
  {| kw_current_day := None; kw_started_at := None;
     kw_last_post_date := None; kw_pending_approval := None;
     kw_status := None |}.

Module StorageManager.

Definition empty_history : HistoryFile :=
  {| posted_items := []; last_updated := None; total_posts := 0 |}.

Definition initial_state : StateFile :=
  {| current_day := 1; started_at := None; last_post_date := None;
     pending_approval := None; status := "not_started" |}.

(** [_ensure_data_files]: a file that exists is kept, a missing one is
    written with its default contents. *)
Definition _ensure_data_files (curriculum : list CurriculumEntry)
    (history : option HistoryFile) (state : option StateFile) : Files :=
  {| curriculum_file := curriculum;
     history_file := match history with Some h => h | None => empty_history end;
     state_file := match state with Some s => s | None => initial_state end |}.

Definition get_curriculum (fs : Files) : list CurriculumEntry :=
  curriculum_file fs.

Fixpoint first_with_day (day : Z) (items : list CurriculumEntry)
    : option CurriculumEntry :=
  match items with
  | [] => None
  | item :: rest =>
      if c_day item =? day then Some item else first_with_day day rest
  end.

Definition get_topic_for_day (fs : Files) (day : Z) : option CurriculumEntry :=
  first_with_day day (get_curriculum fs).

Definition get_history (fs : Files) : HistoryFile := history_file fs.

Definition write_history (fs : Files) (h : HistoryFile) : Files :=
  {| curriculum_file := curriculum_file fs;
     history_file := h;
     state_file := state_file fs |}.

Definition write_state (fs : Files) (s : StateFile) : Files :=
  {| curriculum_file := curriculum_file fs;
     history_file := history_file fs;
     state_file := s |}.

(** The two readings of the clock are [posted_at] and [last_updated]. *)
Definition add_to_history (fs : Files) (day : Z) (topic content : string)
    (linkedin_post_id : option string) (posted_at updated_at : string)
    : Files :=
  let history := get_history fs in
  let posted_item :=
    {| p_day := day; p_topic := topic; p_content := content;
       p_linkedin_post_id := linkedin_post_id;
       p_posted_at := posted_at;
       p_char_count := PyStr.len content |} in
  let items := (posted_items history ++ [posted_item])%list in
  write_history fs
    {| posted_items := items;
       last_updated := Some updated_at;
       total_posts := Z.of_nat (List.length items) |}.

Definition get_posted_days (fs : Files) : list Z :=
  map p_day (posted_items (get_history fs)).

Definition is_day_posted (fs : Files) (day : Z) : bool :=
  existsb (Z.eqb day) (get_posted_days fs).

(** [posted_items[-count:] if posted_items else []] *)
Definition get_recent_posts (fs : Files) (count : Z) : list PostedItem :=
  let items := posted_items (get_history fs) in
  let n := Z.of_nat (List.length items) in
  let start := if count =? 0 then 0 else if count <? 0 then - count else n - count in
  skipn (Z.to_nat start) items.

Definition get_recent_posts_summary (fs : Files) (count : Z) : string :=
  match get_recent_posts fs count with
  | [] => "This is the beginning of the 90-day AI journey!"
  | recent =>
      "Recent posts in this series:" ++ PyStr.nl ++
      PyStr.join PyStr.nl
        (map (fun post =>
                "- Day " ++ PyStr.of_int (p_day post) ++ ": " ++ p_topic post)
             recent)
  end.

Definition get_state (fs : Files) : StateFile := state_file fs.

Definition or_old {A} (new : option A) (old : A) : A :=
  match new with Some v => v | None => old end.

Definition update_state (fs : Files) (kw : Kwargs) : Files :=
  let state := get_state fs in
  write_state fs
    {| current_day := or_old (kw_current_day kw) (current_day state);
       started_at := or_old (kw_started_at kw) (started_at state);
       last_post_date := or_old (kw_last_post_date kw) (last_post_date state);
       pending_approval :=
         or_old (kw_pending_approval kw) (pending_approval state);
       status := or_old (kw_status kw) (status state) |}.

Definition get_current_day (fs : Files) : Z := current_day (get_state fs).

Definition increment_day (fs : Files) : Files :=
  let current := get_current_day fs in
  if current <? 90
  then update_state fs
         {| kw_current_day := Some (current + 1); kw_started_at := None;
            kw_last_post_date := None; kw_pending_approval := None;
            kw_status := None |}
  else fs.

Definition set_pending_approval (fs : Files) (content : PendingApproval)
    : Files :=
  update_state fs
    {| kw_current_day := None; kw_started_at := None;
       kw_last_post_date := None;
       kw_pending_approval := Some (Some content);
       kw_status := Some "pending_approval" |}.

Definition clear_pending_approval (fs : Files) : Files :=
  update_state fs
    {| kw_current_day := None; kw_started_at := None;
       kw_last_post_date := None;
       kw_pending_approval := Some None;
       kw_status := Some "active" |}.

Definition get_pending_approval (fs : Files) : option PendingApproval :=
  pending_approval (get_state fs).

Definition start_journey (fs : Files) (now : string) : Files :=
  update_state fs
    {| kw_current_day := Some 1; kw_started_at := Some (Some now);
       kw_last_post_date := None; kw_pending_approval := None;
       kw_status := Some "active" |}.

Definition mark_post_completed (fs : Files) (day : Z) (now : string) : Files :=
  increment_day
    (update_state fs
       {| kw_current_day := None; kw_started_at := None;
          kw_last_post_date := Some (Some now);
          kw_pending_approval := None; kw_status := None |}).

Definition reset_journey (fs : Files) : Files :=
  write_history (write_state fs initial_state) empty_history.

Definition get_all_topics (fs : Files) : list CurriculumEntry :=
  get_curriculum fs.

End StorageManager.

(* ================================================================== *)
(** ** The outside world and the effects of the nodes *)

Inductive Message :=
| SystemMessage (content : string)
| HumanMessage (content : string).

(** What one call of the language model does: it answers with a text, or it
    raises an exception whose [str] is [message]. *)
Inductive LlmReply :=
| Responds (content : string)
| Fails (message : string).

(** The dictionary [create_text_post] returns. *)
Record ApiReply := {
  api_success : bool;
  api_post_id : option string;
  api_error : option string;
  api_detail : option string
}.

Inductive exn :=
| Exception (message : string)
| EOFError
| KeyError (key : string)
| GraphRecursionError.

(** The collaborators a run is given.  The two prompt templates enter only
    through their [format] calls. *)
Record Env := {
  llm_invoke : nat -> list Message -> LlmReply;
  create_text_post : nat -> string -> ApiReply;
  is_mock : bool;
  isoformat_now : nat -> string;
  STORY_GENERATION_PROMPT :
    Z -> string -> string -> string -> string -> string -> string -> string;
  HASHTAG_PROMPT : string -> string
}.

Record World := {
  files : Files;
  console : list string;
  llm_calls : nat;
  api_calls : nat;
  clock_reads : nat;
  slept : Z
}.

Inductive Outcome (A : Type) :=
| Returns (a : A)
| Raises (e : exn).
Arguments Returns {A} a.
Arguments Raises {A} e.

Definition M (A : Type) : Type := World -> Outcome A * World.

Definition ret {A} (a : A) : M A := fun w => (Returns a, w).

Definition raise {A} (e : exn) : M A := fun w => (Raises e, w).

Definition bind {A B} (m : M A) (k : A -> M B) : M B :=
  fun w =>
    match m w with
    | (Returns a, w') => k a w'
    | (Raises e, w') => (Raises e, w')
    end.

Notation "x <- m ;; k" := (bind m (fun x => k))
  (at level 61, m at next level, right associativity).
Notation "m ;;; k" := (bind m (fun _ => k))
  (at level 61, right associativity).

Module Effects.

Definition set_files (w : World) (fs : Files) : World :=
  {| files := fs; console := console w; llm_calls := llm_calls w;
     api_calls := api_calls w; clock_reads := clock_reads w;
     slept := slept w |}.

Definition set_console (w : World) (c : list string) : World :=
  {| files := files w; console := c; llm_calls := llm_calls w;
     api_calls := api_calls w; clock_reads := clock_reads w;
     slept := slept w |}.

(** A read of the store. *)
Definition storage_get {A} (f : Files -> A) : M A :=
  fun w => (Returns (f (files w)), w).

(** A write to the store. *)
Definition storage_do (f : Files -> Files) : M unit :=
  fun w => (Returns tt, set_files w (f (files w))).

(** [datetime.now().isoformat()] *)
Definition now (env : Env) : M string :=
  fun w =>
    (Returns (isoformat_now env (clock_reads w)),
     {| files := files w; console := console w; llm_calls := llm_calls w;
        api_calls := api_calls w; clock_reads := S (clock_reads w);
        slept := slept w |}).

(** [input()] *)
Definition input : M string :=
  fun w =>
    match console w with
    | [] => (Raises EOFError, w)
    | line :: rest => (Returns line, set_console w rest)
    end.

(** [Prompt.ask(...)]: the value the prompt library hands back is the next
    entry of the console, taken as it is. *)
Definition Prompt_ask : M string := input.

(** [time.sleep(seconds)] *)
Definition sleep (seconds : Z) : M unit :=
  fun w =>
    (Returns tt,
     {| files := files w; console := console w; llm_calls := llm_calls w;
        api_calls := api_calls w; clock_reads := clock_reads w;
        slept := slept w + seconds |}).

(** [self.llm.invoke(messages)], with the exception caught. *)
Definition llm (env : Env) (messages : list Message) : M LlmReply :=
  fun w =>
    (Returns (llm_invoke env (llm_calls w) messages),
     {| files := files w; console := console w;
        llm_calls := S (llm_calls w);
        api_calls := api_calls w; clock_reads := clock_reads w;
        slept := slept w |}).

(** [self.api.create_text_post(content)] *)
Definition api_post (env : Env) (content : string) : M ApiReply :=
  fun w =>
    (Returns (create_text_post env (api_calls w) content),
     {| files := files w; console := console w; llm_calls := llm_calls w;
        api_calls := S (api_calls w); clock_reads := clock_reads w;
        slept := slept w |}).

End Effects.

(** src/tools/linkedin_api.py, the mock client: the counter is the number of
    calls made so far. *)
Module MockLinkedInAPI.

Definition create_text_post (post_counter : nat) (text : string) : ApiReply :=
  {| api_success := true;
     api_post_id :=
       Some ("mock_post_" ++ PyStr.of_int (Z.of_nat post_counter + 1));
     api_error := None;
     api_detail := None |}.

End MockLinkedInAPI.

(** src/tools/linkedin_api.py, the real client: its construction. *)
Module LinkedInAPI.

Definition LINKEDIN_API_BASE_URL : string := "https://api.linkedin.com/v2".

Record client := {
  access_token : option string;
  person_id : string;
  base_url : string
}.

(** [a or b] on optional strings: [a] when it is a non-empty string. *)
Definition or_else (a b : option string) : option string :=
  match a with
  | Some s => if PyStr.truthy s then a else b
  | None => b
  end.

Definition urn_prefix : string := "urn:li:person:".

(** [__init__]: the two arguments default to the configured values.  The
    result is [None] when [startswith] is called on Python's [None], which
    raises [AttributeError]. *)
Definition __init__ (access_token person_id : option string)
    (LINKEDIN_ACCESS_TOKEN LINKEDIN_PERSON_ID : option string)
    : option client :=
  match or_else person_id LINKEDIN_PERSON_ID with
  | None => None
  | Some pid =>
      Some {| access_token := or_else access_token LINKEDIN_ACCESS_TOKEN;
              person_id :=
                if negb (prefix urn_prefix pid)
                then urn_prefix ++ pid else pid;
              base_url := LINKEDIN_API_BASE_URL |}
  end.

End LinkedInAPI.

(* ================================================================== *)
(** ** The dictionaries the nodes hand to each other *)

Record Draft := {
  d_day : Z;
  d_topic : string;
  d_category : string;
  d_difficulty : string;
  d_content : string;
  d_char_count : Z;
  d_regenerated : bool
}.

(** The dictionary [generate_post] returns: [success] is false in the first
    case and true in the second. *)
Inductive GeneratedContent :=
| GenerationFailed (error : string) (duplicate : bool)
| Generated (d : Draft).

(** The dictionary of the approval node.  A key that is absent is [None]
    (or [false] for the two flags, which are only ever set to [True]);
    [a_feedback] is also [None] when the key holds Python's [None]. *)
Record ApprovalResult := {
  a_decision : string;
  a_content : option string;
  a_day : option Z;
  a_topic : option string;
  a_edited : bool;
  a_feedback : option string;
  a_auto_approved : bool;
  a_error : option string
}.

(** The dictionaries stored under [posting_result]. *)
Inductive PostingResult :=
| Posted (post_id : string) (day : Z) (topic : string) (posted_at : string)
         (mock : bool)
| PostFailed (error detail : option string)
| SkippedDay (day : Z) (topic : string)
| QuitAction
| UnknownDecision (error : string).

(** [AgentState], a [TypedDict] with [total=False]: every key may be absent.
    [regenerate_feedback] is [None] both when absent and when it holds
    Python's [None]; the code reads it with [get] and tests its truth. *)
Record AgentState := {
  s_current_day : option Z;
  s_auto_approve : option bool;
  s_regenerate_feedback : option string;
  s_generated_content : option GeneratedContent;
  s_needs_approval : option bool;
  s_approval_result : option ApprovalResult;
  s_posting_result : option PostingResult;
  s_needs_regeneration : option bool;
  s_workflow_complete : option bool;
  s_quit_requested : option bool;
  s_error : option string
}.

(** [d.get(key)] used as a condition. *)
Definition truthy_flag (b : option bool) : bool :=
  match b with Some true => true | _ => false end.

(* ================================================================== *)
(** ** src/nodes/content_generator.py *)

Module ContentGeneratorNode.
Import Effects.

(** The [for attempt in range(max_retries)] loop over its attempts. *)
Fixpoint invoke_attempts (env : Env) (messages : list Message)
    (attempts : list nat) : M string :=
  match attempts with
  | [] => raise (Exception "Max retries exceeded due to rate limiting")
  | attempt :: rest =>
      r <- llm env messages ;;
      match r with
      | Responds content => ret content
      | Fails error_str =>
          if PyStr.contains "429" error_str
             || PyStr.contains "RESOURCE_EXHAUSTED" error_str
          then
            sleep (30 * (Z.of_nat attempt + 1)) ;;;
            invoke_attempts env messages rest
          else raise (Exception error_str)
      end
  end.

Definition _invoke_with_retry (env : Env) (messages : list Message)
    (max_retries : nat) : M string :=
  invoke_attempts env messages (seq 0 max_retries).

Definition _generate_hashtags (env : Env) (content : string) : M string :=
  let prompt := HASHTAG_PROMPT env (PyStr.slice_to 500 content) in
  response <- _invoke_with_retry env [HumanMessage prompt] 3 ;;
  ret (PyStr.strip response).

Definition _truncate_content (content : string) : string :=
  if PyStr.len content <=? MAX_POST_LENGTH then content
  else
    let truncated := PyStr.slice_to (MAX_POST_LENGTH - 100) content in
    let last_para := PyStr.rfind truncated (PyStr.nl ++ PyStr.nl) in
    if PyFloat.int_gt_float last_para
         (PyFloat.int_mul_float (PyStr.len truncated) PyFloat.seven_tenths)
    then PyStr.slice_to last_para truncated
    else truncated.

Definition hashtag_separator : string :=
  PyStr.nl ++ PyStr.nl ++ "---" ++ PyStr.nl.

(** The model's answer, brought within the limit: the first step both
    [generate_post] (lines 93-95) and [regenerate_post] (lines 181-182)
    take on it. *)
Definition limit_length (content : string) : string :=
  if PyStr.len content >? MAX_POST_LENGTH
  then _truncate_content content else content.

(** Their second step (lines 97-100 and 184-186): hashtags are asked for
    and appended when the last 200 characters have no ['#']. *)
Definition ensure_hashtags (env : Env) (content : string) : M string :=
  if negb (PyStr.contains "#" (PyStr.slice_from (-200) content))
  then
    hashtags <- _generate_hashtags env content ;;
    ret (content ++ hashtag_separator ++ hashtags)
  else ret content.

Definition finish_content (env : Env) (content : string) : M string :=
  ensure_hashtags env (limit_length content).

Definition story_prompt (env : Env) (day : Z) (topic_info : CurriculumEntry)
    (previous_posts_summary : string) : string :=
  STORY_GENERATION_PROMPT env day
    (c_topic topic_info) (c_category topic_info) (c_difficulty topic_info)
    (PyStr.join ", " (c_key_points topic_info))
    (c_story_angle topic_info) previous_posts_summary.

Definition generate_post (env : Env) (day : Z) : M GeneratedContent :=
  topic_info <- storage_get (fun fs => StorageManager.get_topic_for_day fs day) ;;
  match topic_info with
  | None =>
      ret (GenerationFailed ("No topic found for day " ++ PyStr.of_int day) false)
  | Some topic_info =>
      posted <- storage_get (fun fs => StorageManager.is_day_posted fs day) ;;
      if posted
      then ret (GenerationFailed
                  ("Day " ++ PyStr.of_int day ++ " has already been posted")
                  true)
      else
        previous_posts_summary <-
          storage_get (fun fs => StorageManager.get_recent_posts_summary fs 3) ;;
        let prompt := story_prompt env day topic_info previous_posts_summary in
        let messages :=
          [SystemMessage
             "You are an expert AI educator creating engaging LinkedIn content.";
           HumanMessage prompt] in
        content <- _invoke_with_retry env messages 3 ;;
        content <- finish_content env content ;;
        ret (Generated
               {| d_day := day;
                  d_topic := c_topic topic_info;
                  d_category := c_category topic_info;
                  d_difficulty := c_difficulty topic_info;
                  d_content := content;
                  d_char_count := PyStr.len content;
                  d_regenerated := false |})
  end.

(** [feedback] is [None] for Python's [None]. *)
Definition regenerate_post (env : Env) (day : Z) (feedback : option string)
    : M GeneratedContent :=
  topic_info <- storage_get (fun fs => StorageManager.get_topic_for_day fs day) ;;
  match topic_info with
  | None =>
      ret (GenerationFailed ("No topic found for day " ++ PyStr.of_int day) false)
  | Some topic_info =>
      previous_posts_summary <-
        storage_get (fun fs => StorageManager.get_recent_posts_summary fs 3) ;;
      let prompt := story_prompt env day topic_info previous_posts_summary in
      let prompt :=
        match feedback with
        | Some fb =>
            if PyStr.truthy fb
            then prompt ++ PyStr.nl ++ PyStr.nl ++ "## Additional Feedback:"
                   ++ PyStr.nl ++ fb ++ PyStr.nl ++ PyStr.nl
                   ++ "Please incorporate this feedback in the new version."
            else prompt
        | None => prompt
        end in
      let messages :=
        [SystemMessage
           "You are an expert AI educator. Create a DIFFERENT version of this post with fresh perspective.";
         HumanMessage prompt] in
      content <- _invoke_with_retry env messages 3 ;;
      content <- finish_content env content ;;
      ret (Generated
             {| d_day := day;
                d_topic := c_topic topic_info;
                d_category := c_category topic_info;
                d_difficulty := c_difficulty topic_info;
                d_content := content;
                d_char_count := PyStr.len content;
                d_regenerated := true |})
  end.

(** [result.get("success", False)] *)
Definition success (result : GeneratedContent) : bool :=
  match result with
  | Generated _ => true
  | GenerationFailed _ _ => false
  end.

Definition __call__ (env : Env) (state : AgentState) : M AgentState :=
  stored_day <- storage_get StorageManager.get_current_day ;;
  let day := match s_current_day state with Some d => d | None => stored_day end in
  let feedback := s_regenerate_feedback state in
  result <-
    (match feedback with
     | Some fb =>
         if PyStr.truthy fb then regenerate_post env day feedback
         else generate_post env day
     | None => generate_post env day
     end) ;;
  ret {| s_current_day := s_current_day state;
         s_auto_approve := s_auto_approve state;
         s_regenerate_feedback := s_regenerate_feedback state;
         s_generated_content := Some result;
         s_needs_approval := Some (success result);
         s_approval_result := s_approval_result state;
         s_posting_result := s_posting_result state;
         s_needs_regeneration := s_needs_regeneration state;
         s_workflow_complete := s_workflow_complete state;
         s_quit_requested := s_quit_requested state;
         s_error := s_error state |}.

End ContentGeneratorNode.

(* ================================================================== *)
(** ** src/nodes/approval_handler.py *)

Module ApprovalHandlerNode.
Import Effects.

Definition choice_map : list (string * string) :=
  [("a", "approve"); ("approve", "approve");
   ("r", "reject"); ("reject", "reject");
   ("e", "edit"); ("edit", "edit");
   ("s", "skip"); ("skip", "skip");
   ("q", "quit"); ("quit", "quit")].

(** [d.get(key, default)] on a dictionary of strings. *)
Fixpoint dict_get (d : list (string * string)) (key default : string)
    : string :=
  match d with
  | [] => default
  | (k, v) :: rest => if (k =? key)%string then v else dict_get rest key default
  end.

(** The normalisation [get_user_decision] applies to the prompt's answer. *)
Definition normalize_choice (answer : string) : string :=
  let choice := PyStr.lower answer in
  dict_get choice_map choice "approve".

Definition get_user_decision : M string :=
  answer <- Prompt_ask ;;
  ret (normalize_choice answer).

(** The [while True] loop of [get_edit_content], one pass per line left on
    the console: [Some lines] after [END], [None] after [CANCEL]. *)
Fixpoint read_edit_lines (lines pending : list string)
    : Outcome (option (list string)) * list string :=
  match pending with
  | [] => (Raises EOFError, [])
  | line :: rest =>
      if (PyStr.upper (PyStr.strip line) =? "END")%string
      then (Returns (Some lines), rest)
      else if (PyStr.upper (PyStr.strip line) =? "CANCEL")%string
      then (Returns None, rest)
      else read_edit_lines (lines ++ [line])%list rest
  end.

Definition get_edit_content (original_content : string) : M string :=
  fun w =>
    match read_edit_lines [] (console w) with
    | (Raises e, rest) => (Raises e, set_console w rest)
    | (Returns None, rest) => (Returns original_content, set_console w rest)
    | (Returns (Some lines), rest) =>
        let edited_content := PyStr.join PyStr.nl lines in
        if negb (PyStr.truthy (PyStr.strip edited_content))
        then (Returns original_content, set_console w rest)
        else (Returns edited_content, set_console w rest)
    end.

Definition get_rejection_feedback : M (option string) :=
  line <- input ;;
  let feedback := PyStr.strip line in
  ret (if PyStr.truthy feedback then Some feedback else None).

Definition request_approval (env : Env) (content_data : Draft)
    : M ApprovalResult :=
  decision <- get_user_decision ;;
  let result :=
    {| a_decision := decision;
       a_content := Some (d_content content_data);
       a_day := Some (d_day content_data);
       a_topic := Some (d_topic content_data);
       a_edited := false; a_feedback := None;
       a_auto_approved := false; a_error := None |} in
  result <-
    (if (decision =? "edit")%string then
       edited <- get_edit_content (d_content content_data) ;;
       final_choice <- Prompt_ask ;;
       ret {| a_decision :=
                if (PyStr.lower final_choice =? "y")%string
                then "approve" else "reject";
              a_content := Some edited;
              a_day := a_day result; a_topic := a_topic result;
              a_edited := true; a_feedback := a_feedback result;
              a_auto_approved := a_auto_approved result;
              a_error := a_error result |}
     else if (decision =? "reject")%string then
       feedback <- get_rejection_feedback ;;
       ret {| a_decision := a_decision result;
              a_content := a_content result;
              a_day := a_day result; a_topic := a_topic result;
              a_edited := a_edited result; a_feedback := feedback;
              a_auto_approved := a_auto_approved result;
              a_error := a_error result |}
     else ret result) ;;
  (if existsb (String.eqb decision) ["approve"; "edit"] then
     approved_at <- now env ;;
     storage_do (fun fs =>
       StorageManager.set_pending_approval fs
         {| pa_content :=
              match a_content result with
              | Some c => c
              | None => d_content content_data
              end;
            pa_day := d_day content_data;
            pa_topic := d_topic content_data;
            pa_approved_at := approved_at |})
   else ret tt) ;;;
  ret result.

Definition auto_approve (content_data : Draft) : ApprovalResult :=
  {| a_decision := "approve";
     a_content := Some (d_content content_data);
     a_day := Some (d_day content_data);
     a_topic := Some (d_topic content_data);
     a_edited := false; a_feedback := None;
     a_auto_approved := true; a_error := None |}.

Definition set_approval_result (state : AgentState) (r : ApprovalResult)
    : AgentState :=
  {| s_current_day := s_current_day state;
     s_auto_approve := s_auto_approve state;
     s_regenerate_feedback := s_regenerate_feedback state;
     s_generated_content := s_generated_content state;
     s_needs_approval := s_needs_approval state;
     s_approval_result := Some r;
     s_posting_result := s_posting_result state;
     s_needs_regeneration := s_needs_regeneration state;
     s_workflow_complete := s_workflow_complete state;
     s_quit_requested := s_quit_requested state;
     s_error := s_error state |}.

Definition error_decision (error : string) : ApprovalResult :=
  {| a_decision := "error"; a_content := None; a_day := None;
     a_topic := None; a_edited := false; a_feedback := None;
     a_auto_approved := false; a_error := Some error |}.

Definition __call__ (env : Env) (state : AgentState) : M AgentState :=
  match s_generated_content state with
  | None => ret (set_approval_result state
                   (error_decision "Content generation failed"))
  | Some (GenerationFailed error _) =>
      ret (set_approval_result state (error_decision error))
  | Some (Generated content_data) =>
      result <-
        (if truthy_flag (s_auto_approve state)
         then ret (auto_approve content_data)
         else request_approval env content_data) ;;
      ret (set_approval_result state result)
  end.

End ApprovalHandlerNode.

(* ================================================================== *)
(** ** src/nodes/linkedin_poster.py *)

Module LinkedInPosterNode.
Import Effects.

Definition post_content (env : Env) (content : string) (day : Z)
    (topic : string) : M PostingResult :=
  result <- api_post env content ;;
  if api_success result then
    let post_id :=
      match api_post_id result with Some p => p | None => "" end in
    posted_at <- now env ;;
    updated_at <- now env ;;
    storage_do (fun fs =>
      StorageManager.add_to_history fs day topic content (Some post_id)
        posted_at updated_at) ;;;
    completed_at <- now env ;;
    storage_do (fun fs =>
      StorageManager.mark_post_completed fs day completed_at) ;;;
    storage_do StorageManager.clear_pending_approval ;;;
    returned_at <- now env ;;
    ret (Posted post_id day topic returned_at (is_mock env))
  else
    ret (PostFailed (api_error result) (api_detail result)).

Definition handle_skip (day : Z) (topic : string) : M PostingResult :=
  storage_do StorageManager.clear_pending_approval ;;;
  storage_do StorageManager.increment_day ;;;
  ret (SkippedDay day topic).

(** [approval_result[key]] *)
Definition item {A} (key : string) (v : option A) : M A :=
  match v with
  | Some a => ret a
  | None => raise (KeyError key)
  end.

(** [approval_result.get(key)] *)
Definition get_field {A} (approval_result : option ApprovalResult)
    (f : ApprovalResult -> option A) : option A :=
  match approval_result with Some r => f r | None => None end.

(** [result.get("success", False)] *)
Definition success (result : PostingResult) : bool :=
  match result with
  | Posted _ _ _ _ _ => true
  | SkippedDay _ _ => true
  | _ => false
  end.

Definition __call__ (env : Env) (state : AgentState) : M AgentState :=
  let approval_result := s_approval_result state in
  let decision := option_map a_decision approval_result in
  let decided (d : string) :=
    match decision with Some x => (x =? d)%string | None => false end in
  if decided "approve" then
    content <- item "content" (get_field approval_result a_content) ;;
    day <- item "day" (get_field approval_result a_day) ;;
    topic <- item "topic" (get_field approval_result a_topic) ;;
    result <- post_content env content day topic ;;
    ret {| s_current_day := s_current_day state;
           s_auto_approve := s_auto_approve state;
           s_regenerate_feedback := s_regenerate_feedback state;
           s_generated_content := s_generated_content state;
           s_needs_approval := s_needs_approval state;
           s_approval_result := s_approval_result state;
           s_posting_result := Some result;
           s_needs_regeneration := s_needs_regeneration state;
           s_workflow_complete := Some (success result);
           s_quit_requested := s_quit_requested state;
           s_error := s_error state |}
  else if decided "skip" then
    day <- item "day" (get_field approval_result a_day) ;;
    topic <- item "topic" (get_field approval_result a_topic) ;;
    result <- handle_skip day topic ;;
    ret {| s_current_day := s_current_day state;
           s_auto_approve := s_auto_approve state;
           s_regenerate_feedback := s_regenerate_feedback state;
           s_generated_content := s_generated_content state;
           s_needs_approval := s_needs_approval state;
           s_approval_result := s_approval_result state;
           s_posting_result := Some result;
           s_needs_regeneration := s_needs_regeneration state;
           s_workflow_complete := Some true;
           s_quit_requested := s_quit_requested state;
           s_error := s_error state |}
  else if decided "reject" then
    ret {| s_current_day := s_current_day state;
           s_auto_approve := s_auto_approve state;
           s_regenerate_feedback := get_field approval_result a_feedback;
           s_generated_content := s_generated_content state;
           s_needs_approval := s_needs_approval state;
           s_approval_result := s_approval_result state;
           s_posting_result := s_posting_result state;
           s_needs_regeneration := Some true;
           s_workflow_complete := Some false;
           s_quit_requested := s_quit_requested state;
           s_error := s_error state |}
  else if decided "quit" then
    ret {| s_current_day := s_current_day state;
           s_auto_approve := s_auto_approve state;
           s_regenerate_feedback := s_regenerate_feedback state;
           s_generated_content := s_generated_content state;
           s_needs_approval := s_needs_approval state;
           s_approval_result := s_approval_result state;
           s_posting_result := Some QuitAction;
           s_needs_regeneration := s_needs_regeneration state;
           s_workflow_complete := Some true;
           s_quit_requested := Some true;
           s_error := s_error state |}
  else
    ret {| s_current_day := s_current_day state;
           s_auto_approve := s_auto_approve state;
           s_regenerate_feedback := s_regenerate_feedback state;
           s_generated_content := s_generated_content state;
           s_needs_approval := s_needs_approval state;
           s_approval_result := s_approval_result state;
           s_posting_result :=
             Some (UnknownDecision
                     ("Unknown decision: " ++
                      match decision with Some d => d | None => "None" end));
           s_needs_regeneration := s_needs_regeneration state;
           s_workflow_complete := Some true;
           s_quit_requested := s_quit_requested state;
           s_error := s_error state |}.

End LinkedInPosterNode.

(* ================================================================== *)
(** ** src/agent.py *)

Inductive Node := generate_content | get_approval | post_to_linkedin.

Module LinkedInPostingAgent.
Import Effects.

(** The graph's [END]. *)
Definition END : option Node := None.

Definition _route_after_generation (state : AgentState) : string :=
  match s_generated_content state with
  | Some content =>
      if ContentGeneratorNode.success content then "needs_approval" else "error"
  | None => "error"
  end.

Definition _route_after_posting (state : AgentState) : string :=
  if truthy_flag (s_needs_regeneration state) then "regenerate" else "complete".

(** The node registered under each name by [add_node]. *)
Definition node (env : Env) (n : Node) : AgentState -> M AgentState :=
  match n with
  | generate_content => ContentGeneratorNode.__call__ env
  | get_approval => ApprovalHandlerNode.__call__ env
  | post_to_linkedin => LinkedInPosterNode.__call__ env
  end.

(** The edges of [_build_graph]: the node that runs after [n] has
    returned [state], or [END]. *)
Definition next (n : Node) (state : AgentState) : option Node :=
  match n with
  | generate_content =>
      if (_route_after_generation state =? "needs_approval")%string
      then Some get_approval else END
  | get_approval => Some post_to_linkedin
  | post_to_linkedin =>
      if (_route_after_posting state =? "regenerate")%string
      then Some generate_content else END
  end.

(** [self.app.invoke]: nodes run one after the other along the edges; the
    graph library gives up with its recursion error once [recursion_limit]
    nodes have run without reaching [END]. *)
Fixpoint invoke_from (env : Env) (recursion_limit : nat) (n : Node)
    (state : AgentState) : M AgentState :=
  match recursion_limit with
  | O => raise GraphRecursionError
  | S limit =>
      state' <- node env n state ;;
      match next n state' with
      | None => ret state'
      | Some n' => invoke_from env limit n' state'
      end
  end.

Definition initial_state (day : Z) (auto_approve : bool) : AgentState :=
  {| s_current_day := Some day;
     s_auto_approve := Some auto_approve;
     s_regenerate_feedback := None;
     s_generated_content := None;
     s_needs_approval := None;
     s_approval_result := None;
     s_posting_result := None;
     s_needs_regeneration := None;
     s_workflow_complete := Some false;
     s_quit_requested := None;
     s_error := None |}.

Definition run (env : Env) (recursion_limit : nat) (day : option Z)
    (auto_approve : bool) : M AgentState :=
  day <- (match day with
          | Some d => ret d
          | None => storage_get StorageManager.get_current_day
          end) ;;
  invoke_from env recursion_limit generate_content
    (initial_state day auto_approve).

Definition preview_post (env : Env) (day : option Z) : M GeneratedContent :=
  day <- (match day with
          | Some d => ret d
          | None => storage_get StorageManager.get_current_day
          end) ;;
  ContentGeneratorNode.generate_post env day.

Definition get_history (fs : Files) (last_n : Z) : list PostedItem :=
  StorageManager.get_recent_posts fs last_n.

End LinkedInPostingAgent.

(* ================================================================== *)
(** ** Concrete stores, collaborators and runs *)

Module Scenario.

(** Day 1 of the curriculum of the end-to-end scenarios. *)
Definition day1 : CurriculumEntry :=
  {| c_day := 1; c_topic := "What is AI?"; c_category := "Basics";
     c_difficulty := "Beginner";
     c_key_points := ["definition"; "history"];
     c_story_angle := "a first encounter" |}.

(** A fresh store: no history or state file yet. *)
Definition fresh : Files := StorageManager._ensure_data_files [day1] None None.

(** The store after day 1 was published once. *)
Definition day1_posted : Files :=
  StorageManager.clear_pending_approval
    (StorageManager.mark_post_completed
       (StorageManager.add_to_history fresh 1 "What is AI?" "A story. #AI"
          (Some "mock_post_1") "t0" "t1")
       1 "t2").

(** A store whose draft for day 1 awaits a decision. *)
Definition awaiting : Files :=
  StorageManager.set_pending_approval fresh
    {| pa_content := "A story. #AI"; pa_day := 1;
       pa_topic := "What is AI?"; pa_approved_at := "t0" |}.

(** A store on its last day, and one on day 1 asked to publish day 5. *)
Definition last_day : Files :=
  StorageManager.update_state fresh
    {| kw_current_day := Some 90; kw_started_at := None;
       kw_last_post_date := None; kw_pending_approval := None;
       kw_status := Some "active" |}.

(** Collaborators: the model answers by [llm]; publishing goes through the
    mock client unless [api] is given; the clock reads [t0], [t1], ... *)
Definition env_with (llm : nat -> list Message -> LlmReply)
    (api : nat -> string -> ApiReply) : Env :=
  {| llm_invoke := llm;
     create_text_post := api;
     is_mock := true;
     isoformat_now := fun n => "t" ++ PyStr.of_int (Z.of_nat n);
     STORY_GENERATION_PROMPT :=
       fun day topic category difficulty key_points story_angle summary =>
         "Day " ++ PyStr.of_int day ++ ": " ++ topic ++ PyStr.nl ++ summary;
     HASHTAG_PROMPT := fun post_content => "Hashtags for: " ++ post_content |}.

Definition world (fs : Files) (lines : list string) : World :=
  {| files := fs; console := lines; llm_calls := 0; api_calls := 0;
     clock_reads := 0; slept := 0 |}.

(** A model that always answers with the same short post, hashtag
    included. *)
Definition tagged_story (n : nat) (messages : list Message) : LlmReply :=
  Responds "A story. #AI".

Definition mock_env : Env :=
  env_with tagged_story MockLinkedInAPI.create_text_post.


(** A model whose first answer is 2950 characters without a hashtag, and
    whose second answer is the five hashtags of the prompt's own example. *)
Definition long_story : string := PyStr.replicate 2950 "a"%char.

Definition example_hashtags : string :=
  "#AI #MachineLearning #TechEducation #DataScience #FutureOfWork".

Definition long_then_hashtags (n : nat) (messages : list Message) : LlmReply :=
  match n with
  | O => Responds long_story
  | _ => Responds example_hashtags
  end.

Definition long_env : Env :=
  env_with long_then_hashtags MockLinkedInAPI.create_text_post.



(** The user rejects with a remark, then approves the second draft. *)
Definition reject_then_approve : list string :=
  ["r"; "more examples"; "a"].


End Scenario.

(** More collaborators and runs. *)
Module Cases.

(** A model that is rate limited twice and then answers. *)
Definition limited_twice (n : nat) (messages : list Message) : LlmReply :=
  match n with
  | 0%nat | 1%nat => Fails "Error code: 429 - quota exceeded"
  | _ => Responds "A story. #AI"
  end.

Definition limited_env : Env :=
  Scenario.env_with limited_twice MockLinkedInAPI.create_text_post.

(** A model that is always rate limited. *)
Definition exhausted_env : Env :=
  Scenario.env_with (fun _ _ => Fails "RESOURCE_EXHAUSTED")
    MockLinkedInAPI.create_text_post.

Definition story : Draft :=
  {| d_day := 1; d_topic := "What is AI?"; d_category := "Basics";
     d_difficulty := "Beginner"; d_content := "A story. #AI";
     d_char_count := 12; d_regenerated := false |}.


(** A first pass in which the user approves at once: the three nodes, each
    from where the one before stopped. *)
Definition start : AgentState := LinkedInPostingAgent.initial_state 1 false.




(** A state in which the approval node has recorded a rejection. *)
Definition rejected : AgentState :=
  ApprovalHandlerNode.set_approval_result start
    {| a_decision := "reject"; a_content := Some "A story. #AI";
       a_day := Some 1; a_topic := Some "What is AI?";
       a_edited := false; a_feedback := Some "more examples";
       a_auto_approved := false; a_error := None |}.

End Cases.

(** The nodes of a run, one after the other: the state after [k] nodes (fewer
    when the graph reached [END]) and the node the edges name next. *)
Fixpoint steps (env : Env) (k : nat) (n : Node) (state : AgentState)
    : M (AgentState * option Node) :=
  match k with
  | O => ret (state, Some n)
  | S k' =>
      state' <- LinkedInPostingAgent.node env n state ;;
      match LinkedInPostingAgent.next n state' with
      | None => ret (state', None)
      | Some n' => steps env k' n' state'
      end
  end.

(* ================================================================== *)
(** ** The properties the specification names *)

(** The JourneyState invariant: a draft is pending exactly when the status
    says so. *)
Definition pending_invariant (fs : Files) : Prop :=
  StorageManager.get_pending_approval fs <> None
  <-> status (StorageManager.get_state fs) = "pending_approval".

(** The day a store moves to when it advances: one further, up to day 90. *)
Definition advanced (current : Z) : Z :=
  if current <? 90 then current + 1 else current.

(** The point at which an over-long text is cut. *)
Definition cut_point : Z := MAX_POST_LENGTH - 100.

(** A paragraph break, two newlines, starts at index [i] of [s]. *)
Definition break_at (s : string) (i : Z) : Prop :=
  PyStr.at_index s i = Some PyStr.newline
  /\ PyStr.at_index s (i + 1) = Some PyStr.newline.

(** The text kept by the cut: the first 2900 characters. *)
Definition kept (content : string) : string := PyStr.take 2900 content.

(** A break that lies before the cut and at or after 70% of the cut point. *)
Definition late_break (s : string) (i : Z) : Prop :=
  break_at s i /\ 7 * cut_point <= 10 * i /\ i + 2 <= cut_point.

(** One of the last 200 characters of [s] is ['#']. *)
Definition hash_in_tail (s : string) : Prop :=
  exists i, PyStr.len s - 200 <= i /\ PyStr.at_index s i = Some "#"%char.







(** Every state the computation returns satisfies [P]. *)
Definition ensures (P : AgentState -> Prop) (m : M AgentState) : Prop :=
  forall w state' w', m w = (Returns state', w') -> P state'.

(** A computation whose returned state has [needs_regeneration] set. *)
Definition flagged (m : M AgentState) : Prop :=
  ensures (fun state' => s_needs_regeneration state' = Some true) m.

(** The decision the publisher reads from the state. *)
Definition decision_seen (state : AgentState) : option string :=
  option_map a_decision (s_approval_result state).

(* ================================================================== *)
(** ** What a computation may do to the world *)

(** Whether it returns or raises, [m] takes every world to one that [R]
    relates to it. *)
Definition always {A} (R : World -> World -> Prop) (m : M A) : Prop :=
  forall w, R w (snd (m w)).

(** Only the model was called, and only time was spent waiting. *)
Definition model_only (w w' : World) : Prop :=
  files w' = files w /\ console w' = console w
  /\ api_calls w' = api_calls w /\ clock_reads w' = clock_reads w.

(** Nothing but the pending draft and the status of the store changed, and
    neither the model nor the publishing client was called. *)
Definition pending_only (w w' : World) : Prop :=
  llm_calls w' = llm_calls w /\ api_calls w' = api_calls w
  /\ slept w' = slept w
  /\ curriculum_file (files w') = curriculum_file (files w)
  /\ history_file (files w') = history_file (files w)
  /\ current_day (state_file (files w')) = current_day (state_file (files w))
  /\ started_at (state_file (files w')) = started_at (state_file (files w))
  /\ last_post_date (state_file (files w'))
     = last_post_date (state_file (files w)).

(** The store moved forward: same curriculum, the old history with entries
    added at its end, a current day that is not earlier. *)
Definition store_grows (fs fs' : Files) : Prop :=
  curriculum_file fs' = curriculum_file fs
  /\ (exists added,
        posted_items (history_file fs')
        = (posted_items (history_file fs) ++ added)%list)
  /\ current_day (state_file fs) <= current_day (state_file fs').

Definition world_grows (w w' : World) : Prop :=
  store_grows (files w) (files w').

(** The history counts its entries, and every entry counts its characters. *)
Definition history_consistent (fs : Files) : Prop :=
  total_posts (history_file fs)
  = Z.of_nat (List.length (posted_items (history_file fs)))
  /\ Forall (fun p => p_char_count p = PyStr.len (p_content p))
       (posted_items (history_file fs)).

(** The current day is a day of the journey. *)
Definition day_in_range (fs : Files) : Prop :=
  1 <= current_day (state_file fs) <= 90.

Definition store_sound (fs : Files) : Prop :=
  pending_invariant fs /\ history_consistent fs /\ day_in_range fs.

Definition keeps_sound (w w' : World) : Prop :=
  store_sound (files w) -> store_sound (files w').

(** The store moved forward and stayed sound if it was. *)
Definition well_run (w w' : World) : Prop :=
  world_grows w w' /\ keeps_sound w w'.

(** Neither the console nor the publishing client was used. *)
Definition no_io (w w' : World) : Prop :=
  console w' = console w /\ api_calls w' = api_calls w.

(** The console was not read, and at most one publishing call was made. *)
Definition one_call_at_most (w w' : World) : Prop :=
  console w' = console w
  /\ (api_calls w <= api_calls w' <= api_calls w + 1)%nat.

(** A state of an auto-approve run in which nothing was rejected. *)
Definition unattended (state : AgentState) : Prop :=
  s_auto_approve state = Some true /\ s_needs_regeneration state = None.

(** The failure is a rate limit, as [_invoke_with_retry] tells it. *)
Definition rate_limited (message : string) : bool :=
  PyStr.contains "429" message || PyStr.contains "RESOURCE_EXHAUSTED" message.

(** The world after [calls] more calls of the model and [seconds] more
    seconds of waiting. *)
Definition waited (w : World) (calls : nat) (seconds : Z) : World :=
  {| files := files w; console := console w;
     llm_calls := calls + llm_calls w;
     api_calls := api_calls w; clock_reads := clock_reads w;
     slept := slept w + seconds |}.

(** The first [k] calls of the model from world [w] on, for [messages], all
    fail on a rate limit. *)
Definition limited_first (env : Env) (messages : list Message) (w : World)
    (k : nat) : Prop :=
  forall i, (i < k)%nat ->
    exists message,
      llm_invoke env (i + llm_calls w) messages = Fails message
      /\ rate_limited message = true.

(** The line ends the editor: [END] or [CANCEL], whatever its case and the
    blanks around it. *)
Definition ends_edit (line : string) : bool :=
  (PyStr.upper (PyStr.strip line) =? "END")%string
  || (PyStr.upper (PyStr.strip line) =? "CANCEL")%string.

(** The string is empty or made of blanks. *)
Definition blank (s : string) : Prop := PyStr.strip s = "".

(* ================================================================== *)
(** * Theorems *)

(** ** The progress store *)

Section Store.

Variable fs : Files.

Lemma is_day_posted_after_add (day : Z) (topic content : string)
    (post_id : option string) (t1 t2 : string) :
  StorageManager.is_day_posted
    (StorageManager.add_to_history fs day topic content post_id t1 t2) day
  = true.
Proof.
  unfold StorageManager.is_day_posted, StorageManager.get_posted_days.
  cbn. rewrite map_app, existsb_app. cbn.
  now rewrite Z.eqb_refl, orb_true_r.
Qed.

Lemma history_after_update_state (kw : Kwargs) :
  history_file (StorageManager.update_state fs kw) = history_file fs.
Proof. reflexivity. Qed.

Lemma history_after_increment_day :
  history_file (StorageManager.increment_day fs) = history_file fs.
Proof.
  unfold StorageManager.increment_day.
  now destruct (StorageManager.get_current_day fs <? 90).
Qed.

Lemma current_day_after_increment_day :
  StorageManager.get_current_day (StorageManager.increment_day fs)
  = advanced (StorageManager.get_current_day fs).
Proof.
  unfold StorageManager.increment_day, advanced.
  now destruct (StorageManager.get_current_day fs <? 90).
Qed.

Lemma pending_after_increment_day :
  state_file (StorageManager.increment_day fs)
  = let st := state_file fs in
    {| current_day := advanced (current_day st);
       started_at := started_at st;
       last_post_date := last_post_date st;
       pending_approval := pending_approval st;
       status := status st |}.
Proof.
  unfold StorageManager.increment_day, advanced,
    StorageManager.get_current_day, StorageManager.get_state.
  destruct fs as [cur hist [cd sa lp pa st]]; cbn.
  now destruct (cd <? 90).
Qed.

End Store.

(** C2, as the code has it.  After [add_to_history] for day [d] followed by
    [mark_post_completed], day [d] is posted, and the current day is the
    stored current day advanced by one, up to day 90: the advance starts
    from the stored day, not from [d], and stops at 90. *)
Theorem record_published_round_trip :
  forall (fs : Files) (d : Z) (topic content : string)
         (post_id : option string) (t1 t2 t3 : string),
    let fs' :=
      StorageManager.mark_post_completed
        (StorageManager.add_to_history fs d topic content post_id t1 t2) d t3 in
    StorageManager.is_day_posted fs' d = true
    /\ StorageManager.get_current_day fs'
       = (if StorageManager.get_current_day fs <? 90
          then StorageManager.get_current_day fs + 1
          else StorageManager.get_current_day fs).
Proof.
  intros fs d topic content post_id t1 t2 t3 fs'. subst fs'.
  unfold StorageManager.mark_post_completed. split.
  - unfold StorageManager.is_day_posted, StorageManager.get_posted_days,
      StorageManager.get_history.
    rewrite history_after_increment_day, history_after_update_state.
    apply (is_day_posted_after_add fs).
  - rewrite current_day_after_increment_day. reflexivity.
Qed.

(** C2 as stated fails twice over: publishing day 5 from a store on day 1
    leaves the current day at 2, not 6; publishing day 90 from a store on
    day 90 leaves it at 90, not 91. *)
Lemma record_published_counterexample :
  (StorageManager.get_current_day
     (StorageManager.mark_post_completed
        (StorageManager.add_to_history Scenario.fresh 5 "topic" "text"
           (Some "id") "t0" "t1") 5 "t2") = 2
   /\ 2 <> Z.min (5 + 1) (TOTAL_DAYS + 1))
  /\ (StorageManager.get_current_day
        (StorageManager.mark_post_completed
           (StorageManager.add_to_history Scenario.last_day 90 "topic" "text"
              (Some "id") "t0" "t1") 90 "t2") = 90
      /\ 90 <> Z.min (90 + 1) (TOTAL_DAYS + 1)).
Proof. repeat split; vm_compute; congruence. Qed.

(** *** The pending-draft invariant *)

Lemma invariant_initially (curriculum : list CurriculumEntry) :
  pending_invariant (StorageManager._ensure_data_files curriculum None None).
Proof. split; cbn; [congruence | discriminate]. Qed.

Lemma invariant_from_state (fs fs' : Files) :
  pending_approval (state_file fs') = pending_approval (state_file fs) ->
  status (state_file fs') = status (state_file fs) ->
  pending_invariant fs -> pending_invariant fs'.
Proof.
  unfold pending_invariant, StorageManager.get_pending_approval,
    StorageManager.get_state.
  intros -> ->. trivial.
Qed.

Lemma invariant_after_set (fs : Files) (content : PendingApproval) :
  pending_invariant (StorageManager.set_pending_approval fs content).
Proof. split; cbn; [reflexivity | discriminate]. Qed.

Lemma invariant_after_clear (fs : Files) :
  pending_invariant (StorageManager.clear_pending_approval fs).
Proof. split; cbn; [congruence | discriminate]. Qed.

Lemma invariant_after_reset (fs : Files) :
  pending_invariant (StorageManager.reset_journey fs).
Proof. split; cbn; [congruence | discriminate]. Qed.

Lemma invariant_after_increment (fs : Files) :
  pending_invariant fs -> pending_invariant (StorageManager.increment_day fs).
Proof.
  apply invariant_from_state; rewrite pending_after_increment_day; reflexivity.
Qed.

Lemma invariant_after_completed (fs : Files) (day : Z) (now : string) :
  pending_invariant fs ->
  pending_invariant (StorageManager.mark_post_completed fs day now).
Proof.
  intros H. unfold StorageManager.mark_post_completed.
  apply invariant_after_increment.
  revert H. apply invariant_from_state; reflexivity.
Qed.

Lemma invariant_after_start (fs : Files) (now : string) :
  StorageManager.get_pending_approval fs = None ->
  pending_invariant (StorageManager.start_journey fs now).
Proof.
  destruct fs as [cur hist [cd sa lp pa st]].
  unfold pending_invariant. cbn. intros ->.
  split; [congruence | discriminate].
Qed.

(** C4, as the code has it.  The invariant holds in the initial state and
    every store operation keeps it, [start_journey] whenever no draft is
    pending: it sets the status to active and leaves the pending draft as it
    finds it. *)
Theorem pending_invariant_preserved (fs : Files)
    (Hinv : pending_invariant fs) :
  (forall curriculum,
     pending_invariant (StorageManager._ensure_data_files curriculum None None))
  /\ (forall content,
        pending_invariant (StorageManager.set_pending_approval fs content))
  /\ pending_invariant (StorageManager.clear_pending_approval fs)
  /\ (forall day now,
        pending_invariant (StorageManager.mark_post_completed fs day now))
  /\ pending_invariant (StorageManager.increment_day fs)
  /\ pending_invariant (StorageManager.reset_journey fs)
  /\ (forall now,
        StorageManager.get_pending_approval fs = None ->
        pending_invariant (StorageManager.start_journey fs now)).
Proof.
  split; [intros; apply invariant_initially | ].
  split; [intros; apply invariant_after_set | ].
  split; [apply invariant_after_clear | ].
  split; [intros; now apply invariant_after_completed | ].
  split; [now apply invariant_after_increment | ].
  split; [apply invariant_after_reset | ].
  intros; now apply invariant_after_start.
Qed.

(** The invariant is kept from a store that awaits a decision and, through
    [start_journey], from a fresh one. *)
Lemma pending_invariant_preserved_witness :
  pending_invariant Scenario.awaiting
  /\ pending_invariant
       (StorageManager.mark_post_completed Scenario.awaiting 1 "t1")
  /\ pending_invariant (StorageManager.start_journey Scenario.fresh "t0").
Proof.
  assert (Ha : pending_invariant Scenario.awaiting)
    by (split; cbn; [reflexivity | discriminate]).
  assert (Hf : pending_invariant Scenario.fresh)
    by (split; cbn; [congruence | discriminate]).
  split; [exact Ha | split].
  - exact (proj1 (proj2 (proj2 (proj2
             (pending_invariant_preserved Scenario.awaiting Ha)))) 1 "t1").
  - refine (proj2 (proj2 (proj2 (proj2 (proj2 (proj2
             (pending_invariant_preserved Scenario.fresh Hf)))))) "t0" _).
    reflexivity.
Defined.

(** C4 as stated fails at [start_journey]: from a store that holds the
    invariant with a draft pending, it leaves the draft in place under the
    status "active". *)
Lemma start_journey_counterexample :
  pending_invariant Scenario.awaiting
  /\ StorageManager.get_pending_approval
       (StorageManager.start_journey Scenario.awaiting "t1") <> None
  /\ status (StorageManager.get_state
               (StorageManager.start_journey Scenario.awaiting "t1"))
     = "active"
  /\ (pending_invariant (StorageManager.start_journey Scenario.awaiting "t1")
      -> False).
Proof.
  split; [split; cbn; [reflexivity | discriminate] | ].
  split; [cbn; discriminate | ].
  split; [reflexivity | ].
  intros [H _]. cbn in H.
  assert (E : "active" = "pending_approval") by (apply H; discriminate).
  discriminate E.
Qed.

(* ================================================================== *)
(** ** The publisher *)



(* ================================================================== *)
(** ** The approval handler *)

Section Letters.


Lemma char_of_code (c : ascii) : ascii_of_N (PyStr.code c) = c.
Proof. apply ascii_N_embedding. Qed.


Lemma code_inj (c k : ascii) : PyStr.code c = PyStr.code k -> c = k.
Proof.
  intros H. rewrite <- (char_of_code c), <- (char_of_code k). now rewrite H.
Qed.




End Letters.







(** *** The pending snapshot *)



Lemma get_edit_content_keeps_store (original : string) (w w1 : World)
    (r : Outcome string) :
  ApprovalHandlerNode.get_edit_content original w = (r, w1) ->
  files w1 = files w /\ clock_reads w1 = clock_reads w.
Proof.
  unfold ApprovalHandlerNode.get_edit_content.
  destruct (ApprovalHandlerNode.read_edit_lines [] (console w))
    as [[[lines | ] | e] rest].
  - destruct (negb _); intros [= <- <-]; now split.
  - intros [= <- <-]; now split.
  - intros [= <- <-]; now split.
Qed.



(* ================================================================== *)
(** ** Strings: slices, search and indices *)

Section Slices.

Lemma take_length (n : nat) (s : string) :
  String.length (PyStr.take n s) = Nat.min n (String.length s).
Proof.
  revert s; induction n as [| n IH]; intros [| c s]; cbn; auto.
Qed.

Lemma get_take (n i : nat) (s : string) :
  (i < n)%nat -> String.get i (PyStr.take n s) = String.get i s.
Proof.
  revert i s; induction n as [| n IH]; intros i [| c s] H; cbn;
    try lia; try reflexivity.
  destruct i as [| i]; [reflexivity | apply IH; lia].
Qed.

Lemma take_take (m n : nat) (s : string) :
  (m <= n)%nat -> PyStr.take m (PyStr.take n s) = PyStr.take m s.
Proof.
  revert n s; induction m as [| m IH]; intros n s H; [reflexivity | ].
  destruct n as [| n]; [lia | ].
  destruct s as [| c s]; cbn; [reflexivity | ].
  f_equal. apply IH. lia.
Qed.

Lemma get_drop (n i : nat) (s : string) :
  String.get i (PyStr.drop n s) = String.get (n + i) s.
Proof.
  revert s; induction n as [| n IH]; intros s; [reflexivity | ].
  destruct s as [| c s]; cbn; [now destruct i | apply IH].
Qed.

Lemma get_beyond (i : nat) (s : string) :
  (String.length s <= i)%nat -> String.get i s = None.
Proof.
  revert i; induction s as [| c s IH]; intros i H; [now destruct i | ].
  destruct i as [| i]; cbn in *; [lia | apply IH; lia].
Qed.

Lemma get_within (i : nat) (s : string) (c : ascii) :
  String.get i s = Some c -> (i < String.length s)%nat.
Proof.
  intros H. destruct (Nat.lt_ge_cases i (String.length s)) as [L | L];
    [exact L | ].
  rewrite (get_beyond i s L) in H. discriminate.
Qed.

Lemma append_length (a b : string) :
  String.length (a ++ b) = (String.length a + String.length b)%nat.
Proof. induction a as [| c a IH]; cbn; [reflexivity | now rewrite IH]. Qed.

Lemma at_index_nat (s : string) (k : nat) :
  PyStr.at_index s (Z.of_nat k) = String.get k s.
Proof.
  unfold PyStr.at_index.
  destruct (Z.ltb_spec (Z.of_nat k) 0); [lia | now rewrite Nat2Z.id].
Qed.

Lemma at_index_some (s : string) (i : Z) (c : ascii) :
  PyStr.at_index s i = Some c ->
  0 <= i /\ String.get (Z.to_nat i) s = Some c.
Proof.
  unfold PyStr.at_index. destruct (Z.ltb_spec i 0); [discriminate | ].
  intros H'. split; [lia | exact H'].
Qed.

(** A two-character needle starts a string exactly when it is its first
    two characters. *)
Lemma prefix_pair (a b : ascii) (s : string) :
  prefix (String a (String b EmptyString)) s = true
  <-> String.get 0 s = Some a /\ String.get 1 s = Some b.
Proof.
  destruct s as [| c [| c' s]]; cbn.
  - split; [discriminate | intros [H _]; discriminate].
  - destruct (ascii_dec a c); (split; [discriminate | ]);
      intros [_ H]; discriminate.
  - destruct (ascii_dec a c) as [-> | Na], (ascii_dec b c') as [-> | Nb].
    + destruct s; now split.
    + split; [discriminate | intros [_ H]; congruence].
    + split; [discriminate | intros [H _]; congruence].
    + split; [discriminate | intros [H _]; congruence].
Qed.

Lemma prefix_single (a : ascii) (s : string) :
  prefix (String a EmptyString) s = true <-> String.get 0 s = Some a.
Proof.
  destruct s as [| c s]; cbn.
  - split; discriminate.
  - destruct (ascii_dec a c) as [-> | Na].
    + destruct s; now split.
    + split; [discriminate | congruence].
Qed.

Lemma contains_char (a : ascii) (s : string) :
  PyStr.contains (String a EmptyString) s = true
  <-> exists i, String.get i s = Some a.
Proof.
  induction s as [| c s IH].
  - cbn. split; [discriminate | intros [[| i] H]; discriminate].
  - cbn [PyStr.contains]. rewrite orb_true_iff, prefix_single, IH. split.
    + intros [H | [i H]]; [now exists O | now exists (S i)].
    + intros [[| i] H]; [now left | right; now exists i].
Qed.

(** What [rfind_from] returns: the fallback, when the needle starts at no
    offset of [s]; otherwise the last offset at which it starts. *)
Lemma rfind_from_spec (sub s : string) :
  forall i acc,
    (PyStr.rfind_from sub s i acc = acc
     /\ forall k, (k <= String.length s)%nat ->
                  prefix sub (PyStr.drop k s) = false)
    \/ (exists k,
          (k <= String.length s)%nat
          /\ PyStr.rfind_from sub s i acc = i + Z.of_nat k
          /\ prefix sub (PyStr.drop k s) = true
          /\ forall k', (k < k' <= String.length s)%nat ->
                        prefix sub (PyStr.drop k' s) = false).
Proof.
  induction s as [| c s IH]; intros i acc.
  - cbn [PyStr.rfind_from]. destruct (prefix sub EmptyString) eqn:E.
    + right. exists O. cbn. repeat split; auto; try lia.
    + left. split; [reflexivity | ].
      intros k Hk. cbn in Hk. now replace k with O by lia.
  - cbn [PyStr.rfind_from].
    destruct (IH (i + 1) (if prefix sub (String c s) then i else acc))
      as [[Hr Hnone] | [k [Hk [Hr [Hat Hlast]]]]].
    + destruct (prefix sub (String c s)) eqn:E.
      * right. exists O. cbn [String.length PyStr.drop].
        repeat split; [lia | rewrite Hr; lia | exact E | ].
        intros [| k'] Hk'; [lia | ]. cbn. apply Hnone. lia.
      * left. split; [exact Hr | ].
        intros [| k] Hk; [exact E | ]. cbn. apply Hnone. cbn in Hk. lia.
    + right. exists (S k). cbn [String.length PyStr.drop].
      repeat split; [lia | rewrite Hr; lia | exact Hat | ].
      intros [| k'] Hk'; [lia | ]. cbn. apply Hlast. lia.
Qed.

End Slices.

(** The comparison [last_para > len(truncated) * 0.7] at a cut of 2900
    characters: the product rounds to the double just below 2030, so the
    test holds from index 2030 on. *)
Lemma threshold_table :
  forallb
    (fun n =>
       Bool.eqb
         (PyFloat.int_gt_float (Z.of_nat n - 1)
            (PyFloat.int_mul_float 2900 PyFloat.seven_tenths))
         (2030 <=? Z.of_nat n - 1))
    (seq 0 2902)
  = true.
Proof. vm_compute. reflexivity. Qed.

Lemma threshold_at_cut (r : Z) :
  -1 <= r <= 2900 ->
  PyFloat.int_gt_float r (PyFloat.int_mul_float 2900 PyFloat.seven_tenths)
  = (2030 <=? r).
Proof.
  intros H. pose proof threshold_table as T.
  rewrite forallb_forall in T.
  specialize (T (Z.to_nat (r + 1))).
  replace (Z.of_nat (Z.to_nat (r + 1)) - 1) with r in T by lia.
  apply eqb_prop, T, in_seq. lia.
Qed.

(* ================================================================== *)
(** ** The content generator *)

Section Truncation.

Variable content : string.
Hypothesis Hlong : PyStr.len content > MAX_POST_LENGTH.

Lemma cut_is_take : PyStr.slice_to (MAX_POST_LENGTH - 100) content = (kept content).
Proof. reflexivity. Qed.

Lemma kept_length : String.length (kept content) = 2900%nat.
Proof.
  unfold kept. rewrite take_length.
  unfold PyStr.len, MAX_POST_LENGTH in Hlong. lia.
Qed.

(** The breaks [rfind] sees in the kept text are the breaks of the whole
    text that end before the cut. *)
Lemma break_in_kept (k : nat) :
  prefix (PyStr.nl ++ PyStr.nl) (PyStr.drop k (kept content)) = true
  <-> break_at content (Z.of_nat k) /\ Z.of_nat k + 2 <= cut_point.
Proof.
  change (PyStr.nl ++ PyStr.nl)
    with (String PyStr.newline (String PyStr.newline EmptyString)).
  rewrite prefix_pair, !get_drop. unfold break_at, cut_point, MAX_POST_LENGTH.
  replace (Z.of_nat k + 1) with (Z.of_nat (k + 1)) by lia.
  rewrite !at_index_nat, Nat.add_0_r. split.
  - intros [H0 H1].
    pose proof (get_within _ _ _ H1) as L. rewrite kept_length in L.
    unfold kept in H0, H1.
    rewrite get_take in H0 by lia. rewrite get_take in H1 by lia.
    repeat split; auto; lia.
  - intros [[H0 H1] L]. unfold kept.
    rewrite !get_take by lia. now split.
Qed.

Lemma late_break_nat (i : Z) :
  late_break content i ->
  prefix (PyStr.nl ++ PyStr.nl) (PyStr.drop (Z.to_nat i) (kept content)) = true
  /\ 2030 <= i <= 2898.
Proof.
  intros [[H0 H1] [L70 Lcut]].
  destruct (at_index_some _ _ _ H0) as [Hi _].
  unfold cut_point, MAX_POST_LENGTH in *.
  split; [ | lia].
  apply break_in_kept. rewrite Z2Nat.id by lia.
  unfold cut_point, MAX_POST_LENGTH. repeat split; auto.
Qed.

Lemma truncate_cases :
  let out := ContentGeneratorNode._truncate_content content in
  (exists j,
     late_break content j
     /\ (forall k, late_break content k -> k <= j)
     /\ out = PyStr.slice_to j content /\ PyStr.len out = j)
  \/ ((forall i, ~ late_break content i)
      /\ out = PyStr.slice_to cut_point content
      /\ PyStr.len out = cut_point).
Proof.
  cbv zeta. unfold ContentGeneratorNode._truncate_content.
  destruct (Z.leb_spec (PyStr.len content) MAX_POST_LENGTH) as [L | _];
    [lia | ].
  rewrite cut_is_take.
  assert (Hlen : PyStr.len (kept content) = 2900)
    by (unfold PyStr.len; rewrite kept_length; reflexivity).
  rewrite Hlen. unfold PyStr.rfind.
  assert (Hkeep : (kept content) = PyStr.slice_to cut_point content) by reflexivity.
  destruct (rfind_from_spec (PyStr.nl ++ PyStr.nl) (kept content) 0 (-1))
    as [[Hr Hnone] | [k [Hk [Hr [Hat Hlast]]]]].
  - rewrite Hr, threshold_at_cut by lia. cbn [Z.leb Z.compare].
    right. split; [ | split; [exact Hkeep | exact Hlen]].
    intros i Hi. destruct (late_break_nat i Hi) as [Hp Hb].
    rewrite Hnone in Hp; [discriminate | rewrite kept_length; lia].
  - rewrite kept_length in Hk. rewrite Hr, threshold_at_cut by lia.
    rewrite Z.add_0_l.
    pose proof (proj1 (break_in_kept k) Hat) as [Hbreak Hcut].
    destruct (Z.leb_spec 2030 (Z.of_nat k)) as [L70 | L70].
    + left. exists (Z.of_nat k).
      assert (Eout : PyStr.slice_to (Z.of_nat k) (kept content)
                     = PyStr.slice_to (Z.of_nat k) content).
      { unfold PyStr.slice_to, PyStr.bound.
        destruct (Z.ltb_spec (Z.of_nat k) 0); [lia | ].
        unfold kept. apply take_take. lia. }
      split; [ | split; [ | split]].
      * split; [exact Hbreak | ].
        unfold cut_point, MAX_POST_LENGTH in *. lia.
      * intros k' Hk'. destruct (late_break_nat k' Hk') as [Hp Hb].
        destruct (Z.le_gt_cases k' (Z.of_nat k)) as [Le | Gt]; [exact Le | ].
        rewrite Hlast in Hp; [discriminate | rewrite kept_length; lia].
      * exact Eout.
      * rewrite Eout. unfold PyStr.slice_to, PyStr.bound, PyStr.len.
        destruct (Z.ltb_spec (Z.of_nat k) 0); [lia | ].
        rewrite take_length.
        unfold PyStr.len, MAX_POST_LENGTH in Hlong. lia.
    + right. split; [ | split; [exact Hkeep | exact Hlen]].
      intros i Hi. destruct (late_break_nat i Hi) as [Hp Hb].
      rewrite Hlast in Hp; [discriminate | rewrite kept_length; lia].
Qed.

End Truncation.



(** *** Hashtags *)

Lemma hash_in_tail_spec (s : string) :
  hash_in_tail s
  <-> PyStr.contains "#" (PyStr.slice_from (-200) s) = true.
Proof.
  unfold hash_in_tail, PyStr.slice_from, PyStr.bound.
  change (-200 <? 0) with true. cbv iota.
  rewrite contains_char. split.
  - intros [i [Hi Hat]]. destruct (at_index_some _ _ _ Hat) as [H0 Hget].
    exists (Z.to_nat i - Z.to_nat (PyStr.len s + -200))%nat.
    rewrite get_drop.
    replace (Z.to_nat (PyStr.len s + -200)
             + (Z.to_nat i - Z.to_nat (PyStr.len s + -200)))%nat
      with (Z.to_nat i) by lia.
    exact Hget.
  - intros [i Hget]. rewrite get_drop in Hget.
    exists (Z.of_nat (Z.to_nat (PyStr.len s + -200) + i)).
    split; [lia | now rewrite at_index_nat].
Qed.





(** *** Generation *)

(** A successful [generate_post]: the draft carries the finished content and
    its length. *)
Lemma generate_post_returns (env : Env) (day : Z) (w w1 w2 : World)
    (topic_info : CurriculumEntry) (raw content : string) :
  StorageManager.get_topic_for_day (files w) day = Some topic_info ->
  StorageManager.is_day_posted (files w) day = false ->
  ContentGeneratorNode._invoke_with_retry env
    [SystemMessage
       "You are an expert AI educator creating engaging LinkedIn content.";
     HumanMessage
       (ContentGeneratorNode.story_prompt env day topic_info
          (StorageManager.get_recent_posts_summary (files w) 3))] 3 w
  = (Returns raw, w1) ->
  ContentGeneratorNode.ensure_hashtags env
    (ContentGeneratorNode.limit_length raw) w1
  = (Returns content, w2) ->
  ContentGeneratorNode.generate_post env day w
  = (Returns
       (Generated
          {| d_day := day; d_topic := c_topic topic_info;
             d_category := c_category topic_info;
             d_difficulty := c_difficulty topic_info;
             d_content := content; d_char_count := PyStr.len content;
             d_regenerated := false |}),
     w2).
Proof.
  intros Htopic Hposted Hraw Hfinish.
  unfold ContentGeneratorNode.generate_post, bind, Effects.storage_get.
  rewrite Htopic, Hposted, Hraw.
  unfold ContentGeneratorNode.finish_content. now rewrite Hfinish.
Qed.

(** A successful [regenerate_post]: the same two steps on the model's
    answer, and no condition on the history. *)
Lemma regenerate_post_returns (env : Env) (day : Z) (feedback : option string)
    (w w1 w2 : World) (topic_info : CurriculumEntry) (raw content : string) :
  StorageManager.get_topic_for_day (files w) day = Some topic_info ->
  (let prompt :=
     ContentGeneratorNode.story_prompt env day topic_info
       (StorageManager.get_recent_posts_summary (files w) 3) in
   ContentGeneratorNode._invoke_with_retry env
     [SystemMessage
        "You are an expert AI educator. Create a DIFFERENT version of this post with fresh perspective.";
      HumanMessage
        match feedback with
        | Some fb =>
            if PyStr.truthy fb
            then prompt ++ PyStr.nl ++ PyStr.nl ++ "## Additional Feedback:"
                   ++ PyStr.nl ++ fb ++ PyStr.nl ++ PyStr.nl
                   ++ "Please incorporate this feedback in the new version."
            else prompt
        | None => prompt
        end] 3 w
   = (Returns raw, w1)) ->
  ContentGeneratorNode.ensure_hashtags env
    (ContentGeneratorNode.limit_length raw) w1
  = (Returns content, w2) ->
  ContentGeneratorNode.regenerate_post env day feedback w
  = (Returns
       (Generated
          {| d_day := day; d_topic := c_topic topic_info;
             d_category := c_category topic_info;
             d_difficulty := c_difficulty topic_info;
             d_content := content; d_char_count := PyStr.len content;
             d_regenerated := true |}),
     w2).
Proof.
  cbv zeta. intros Htopic Hraw Hfinish.
  unfold ContentGeneratorNode.regenerate_post, bind, Effects.storage_get.
  rewrite Htopic, Hraw.
  unfold ContentGeneratorNode.finish_content. now rewrite Hfinish.
Qed.

(** Every draft [generate_post] returns counts its own characters. *)
Lemma generate_post_char_count (env : Env) (day : Z) (w w' : World)
    (d : Draft) :
  ContentGeneratorNode.generate_post env day w = (Returns (Generated d), w') ->
  d_char_count d = PyStr.len (d_content d).
Proof.
  unfold ContentGeneratorNode.generate_post, bind, Effects.storage_get.
  destruct (StorageManager.get_topic_for_day (files w) day);
    [ | intros [=]].
  destruct (StorageManager.is_day_posted (files w) day); [intros [=] | ].
  destruct (ContentGeneratorNode._invoke_with_retry _ _ _ _) as [[raw | e] w1];
    [ | intros [=]].
  destruct (ContentGeneratorNode.finish_content env raw w1) as [[txt | e] w2];
    [ | intros [=]].
  unfold ret. intros [= <- _]. reflexivity.
Qed.

(** C5 at a failing input.  The model answers with 2950 characters without a
    hashtag, then with the five hashtags of the prompt's example: the text
    is under the limit and is not truncated, hashtags are appended, and the
    draft returned has 3018 characters. *)
Theorem generate_post_exceeds_limit :
  ContentGeneratorNode.generate_post Scenario.long_env 1
    (Scenario.world Scenario.fresh [])
  = (Returns
       (Generated
          {| d_day := 1; d_topic := "What is AI?"; d_category := "Basics";
             d_difficulty := "Beginner";
             d_content :=
               Scenario.long_story ++ PyStr.nl ++ PyStr.nl ++ "---"
                 ++ PyStr.nl ++ Scenario.example_hashtags;
             d_char_count := 3018; d_regenerated := false |}),
     {| files := Scenario.fresh; console := []; llm_calls := 2;
        api_calls := 0; clock_reads := 0; slept := 0 |})
  /\ PyStr.len Scenario.long_story <= MAX_POST_LENGTH
  /\ PyStr.len
       (Scenario.long_story ++ PyStr.nl ++ PyStr.nl ++ "---" ++ PyStr.nl
          ++ Scenario.example_hashtags) = 3018
  /\ MAX_POST_LENGTH < 3018.
Proof.
  split; [vm_compute; reflexivity | ].
  split; [vm_compute; discriminate | ].
  split; vm_compute; reflexivity.
Qed.

(** C3 at a failing input.  Day 1 is in the history: [generate_post] refuses
    it as already posted, while [regenerate_post] returns a new draft for
    it. *)
Theorem regenerate_post_ignores_history :
  StorageManager.is_day_posted Scenario.day1_posted 1 = true
  /\ ContentGeneratorNode.generate_post Scenario.mock_env 1
       (Scenario.world Scenario.day1_posted [])
     = (Returns (GenerationFailed "Day 1 has already been posted" true),
        Scenario.world Scenario.day1_posted [])
  /\ ContentGeneratorNode.regenerate_post Scenario.mock_env 1
       (Some "more examples") (Scenario.world Scenario.day1_posted [])
     = (Returns
          (Generated
             {| d_day := 1; d_topic := "What is AI?"; d_category := "Basics";
                d_difficulty := "Beginner"; d_content := "A story. #AI";
                d_char_count := 12; d_regenerated := true |}),
        {| files := Scenario.day1_posted; console := []; llm_calls := 1;
           api_calls := 0; clock_reads := 0; slept := 0 |}).
Proof. repeat split; vm_compute; reflexivity. Qed.

(* ================================================================== *)
(** ** The orchestrator *)

Section Regeneration.

Variable env : Env.

Lemma ensures_ret (P : AgentState -> Prop) (state : AgentState) :
  P state -> ensures P (ret state).
Proof. intros H w state' w'. unfold ret. now intros [= <- _]. Qed.

Lemma ensures_bind {A} (P : AgentState -> Prop) (m : M A)
    (k : A -> M AgentState) :
  (forall a, ensures P (k a)) -> ensures P (bind m k).
Proof.
  intros Hk w state' w'. unfold bind.
  destruct (m w) as [[a | e] w1]; [apply Hk | discriminate].
Qed.

(** What the publisher does to the flag: it sets it on "reject" and leaves
    it as it is on every other decision. *)
Lemma poster_flag (state : AgentState) :
  ensures
    (fun state' =>
       s_needs_regeneration state'
       = match decision_seen state with
         | Some "reject" => Some true
         | _ => s_needs_regeneration state
         end)
    (LinkedInPosterNode.__call__ env state).
Proof.
  unfold LinkedInPosterNode.__call__, decision_seen.
  destruct (option_map a_decision (s_approval_result state)) as [d | ].
  - destruct (String.eqb_spec d "approve") as [-> | Na].
    { repeat (apply ensures_bind; intros ?). now apply ensures_ret. }
    destruct (String.eqb_spec d "skip") as [-> | Ns].
    { repeat (apply ensures_bind; intros ?). now apply ensures_ret. }
    destruct (String.eqb_spec d "reject") as [-> | Nr].
    { now apply ensures_ret. }
    assert (E : match d with
                | "reject" => Some true
                | _ => s_needs_regeneration state
                end = s_needs_regeneration state).
    { destruct (String.eqb_spec d "reject") as [-> | _]; [contradiction | ].
      clear -Nr.
      repeat (match goal with
              | |- context [match ?x with _ => _ end] =>
                  first [is_var x | fail 1]; destruct x
              | a : ascii |- _ => destruct a as [[] [] [] [] [] [] [] []]
              end; try reflexivity; try contradiction). }
    rewrite E.
    destruct (String.eqb_spec d "quit") as [-> | Nq]; now apply ensures_ret.
  - now apply ensures_ret.
Qed.

(** No node clears the flag. *)
Lemma node_keeps_flag (n : Node) (state : AgentState) :
  s_needs_regeneration state = Some true ->
  flagged (LinkedInPostingAgent.node env n state).
Proof.
  intros H. unfold flagged. destruct n; cbn [LinkedInPostingAgent.node].
  - unfold ContentGeneratorNode.__call__.
    apply ensures_bind; intros stored.
    apply ensures_bind; intros result.
    now apply ensures_ret.
  - unfold ApprovalHandlerNode.__call__.
    destruct (s_generated_content state) as [[error dup | d] | ].
    + now apply ensures_ret.
    + apply ensures_bind; intros result. now apply ensures_ret.
    + now apply ensures_ret.
  - intros w state' w' Hcall.
    rewrite (poster_flag state w state' w' Hcall).
    destruct (decision_seen state) as [d | ]; [ | exact H].
    repeat (match goal with
            | |- context [match ?x with _ => _ end] =>
                first [is_var x | fail 1]; destruct x
            end; try reflexivity; try exact H).
Qed.

End Regeneration.

(** C1 at a failing input.  The user rejects the first draft with a remark
    and approves the second.  After six nodes the publisher has handled the
    approval: the post is published and recorded and the workflow is marked
    complete, yet the edge taken leads back to generation, because the flag
    the rejection set is still there.  With nothing more on the console the
    run ends in the prompt's end-of-file error and returns no outcome.  The
    flag is never cleared: once it is set, whatever the publisher handles
    next, its edge leads back to generation. *)
Theorem approve_after_reject_loops_back :
  (exists state w',
     steps Scenario.mock_env 6 generate_content
       (LinkedInPostingAgent.initial_state 1 false)
       (Scenario.world Scenario.fresh Scenario.reject_then_approve)
     = (Returns (state, Some generate_content), w')
     /\ decision_seen state = Some "approve"
     /\ s_posting_result state
        = Some (Posted "mock_post_1" 1 "What is AI?" "t4" true)
     /\ s_workflow_complete state = Some true
     /\ LinkedInPostingAgent._route_after_posting state = "regenerate"
     /\ StorageManager.is_day_posted (files w') 1 = true)
  /\ fst (LinkedInPostingAgent.run Scenario.mock_env 25 (Some 1) false
            (Scenario.world Scenario.fresh Scenario.reject_then_approve))
     = Raises EOFError
  /\ (forall env state w state' w',
        s_needs_regeneration state = Some true ->
        LinkedInPosterNode.__call__ env state w = (Returns state', w') ->
        LinkedInPostingAgent.next post_to_linkedin state'
        = Some generate_content).
Proof.
  split; [ | split].
  - destruct (steps Scenario.mock_env 6 generate_content
                (LinkedInPostingAgent.initial_state 1 false)
                (Scenario.world Scenario.fresh Scenario.reject_then_approve))
      as [[[state n] | e] w'] eqn:E;
      vm_compute in E; [ | discriminate E].
    injection E as <- <- <-. do 2 eexists.
    repeat split; vm_compute; reflexivity.
  - vm_compute. reflexivity.
  - intros env state w state' w' Hflag Hcall.
    pose proof (node_keeps_flag env post_to_linkedin state Hflag w state' w'
                  Hcall) as H.
    unfold LinkedInPostingAgent.next, LinkedInPostingAgent._route_after_posting.
    now rewrite H.
Qed.

(** [steps] follows the run: running [k] nodes and then invoking the graph
    from where they stopped is invoking it from the start. *)
Lemma invoke_from_steps (env : Env) (k m : nat) :
  forall (n : Node) (state : AgentState) (w : World),
    LinkedInPostingAgent.invoke_from env (k + m) n state w
    = bind (steps env k n state)
        (fun r =>
           match snd r with
           | None => ret (fst r)
           | Some n' => LinkedInPostingAgent.invoke_from env m n' (fst r)
           end) w.
Proof.
  induction k as [| k IH]; intros n state w; [reflexivity | ].
  cbn [Nat.add LinkedInPostingAgent.invoke_from steps]. unfold bind at 1 2 3.
  destruct (LinkedInPostingAgent.node env n state w) as [[state' | e] w'];
    [ | reflexivity].
  destruct (LinkedInPostingAgent.next n state') as [n' | ]; [ | reflexivity].
  rewrite IH. reflexivity.
Qed.

(** On the first pass of a run, before any rejection, the publisher's edge
    leads back to generation exactly when the decision it handled is
    "reject". *)
Lemma first_pass_routes_by_decision (env : Env) (state state' : AgentState)
    (w w' : World) :
  s_needs_regeneration state = None ->
  LinkedInPosterNode.__call__ env state w = (Returns state', w') ->
  (LinkedInPostingAgent.next post_to_linkedin state' = Some generate_content
   <-> decision_seen state = Some "reject").
Proof.
  intros Hflag Hcall.
  unfold LinkedInPostingAgent.next, LinkedInPostingAgent._route_after_posting.
  rewrite (poster_flag env state w state' w' Hcall), Hflag.
  destruct (decision_seen state) as [d | ]; [ | cbn; split; discriminate].
  destruct (String.eqb_spec d "reject") as [-> | Nr]; [cbn; now split | ].
  split; [ | intros [= E]; contradiction].
  intros H. exfalso. revert H.
  repeat (match goal with
          | |- context [match ?x with _ => _ end] =>
              first [is_var x | fail 1]; destruct x
          end; try (cbn; discriminate)).
  contradiction.
Qed.

(** The user rejects once and then approves twice: each approval after the
    rejection publishes day 1 again. *)
Lemma approve_twice_posts_twice :
  StorageManager.get_posted_days
    (files
       (snd (LinkedInPostingAgent.run Scenario.mock_env 25 (Some 1) false
               (Scenario.world Scenario.fresh
                  ["r"; "more examples"; "a"; "a"]))))
  = [1; 1].
Proof. vm_compute. reflexivity. Qed.

(* ================================================================== *)
(** * More of the code *)

(** ** Rules for [always] *)

Section AlwaysRules.

Variable R : World -> World -> Prop.
Hypothesis R_refl : forall w, R w w.
Hypothesis R_trans : forall a b c, R a b -> R b c -> R a c.

Lemma always_ret {A} (a : A) : always R (ret a).
Proof. intros w. apply R_refl. Qed.

Lemma always_raise {A} (e : exn) : always R (@raise A e).
Proof. intros w. apply R_refl. Qed.

Lemma always_bind {A B} (m : M A) (k : A -> M B) :
  always R m -> (forall a, always R (k a)) -> always R (bind m k).
Proof.
  intros Hm Hk w. unfold bind. specialize (Hm w).
  destruct (m w) as [[a | e] w1]; cbn in *; [ | exact Hm].
  exact (R_trans _ _ _ Hm (Hk a w1)).
Qed.

Lemma always_storage_get {A} (f : Files -> A) :
  always R (Effects.storage_get f).
Proof. intros w. apply R_refl. Qed.

Lemma always_item {A} (key : string) (v : option A) :
  always R (LinkedInPosterNode.item key v).
Proof. destruct v; [apply always_ret | apply always_raise]. Qed.

End AlwaysRules.

Lemma always_weaken {A} (R R' : World -> World -> Prop) (m : M A) :
  (forall w w', R w w' -> R' w w') -> always R m -> always R' m.
Proof. intros H Hm w. apply H, Hm. Qed.

(** ** The content generator, beyond the claims *)

Lemma model_only_refl (w : World) : model_only w w.
Proof. repeat split. Qed.

Lemma model_only_trans (a b c : World) :
  model_only a b -> model_only b c -> model_only a c.
Proof.
  unfold model_only. intros [F1 [C1 [A1 K1]]] [F2 [C2 [A2 K2]]].
  repeat split; congruence.
Qed.

Lemma llm_model_only (env : Env) (messages : list Message) :
  always model_only (Effects.llm env messages).
Proof. intros w. repeat split. Qed.

Lemma sleep_model_only (seconds : Z) : always model_only (Effects.sleep seconds).
Proof. intros w. repeat split. Qed.

Lemma invoke_attempts_model_only (env : Env) (messages : list Message)
    (attempts : list nat) :
  always model_only (ContentGeneratorNode.invoke_attempts env messages attempts).
Proof.
  induction attempts as [| attempt rest IH]; cbn [ContentGeneratorNode.invoke_attempts].
  - apply (always_raise _ model_only_refl).
  - apply (always_bind _ model_only_trans); [apply llm_model_only | ].
    intros [content | message].
    + apply (always_ret _ model_only_refl).
    + destruct (_ || _).
      * apply (always_bind _ model_only_trans);
          [apply sleep_model_only | intros _; exact IH].
      * apply (always_raise _ model_only_refl).
Qed.

Lemma invoke_with_retry_model_only (env : Env) (messages : list Message)
    (max_retries : nat) :
  always model_only
    (ContentGeneratorNode._invoke_with_retry env messages max_retries).
Proof. apply invoke_attempts_model_only. Qed.

Lemma finish_content_model_only (env : Env) (content : string) :
  always model_only (ContentGeneratorNode.finish_content env content).
Proof.
  unfold ContentGeneratorNode.finish_content,
    ContentGeneratorNode.ensure_hashtags,
    ContentGeneratorNode._generate_hashtags.
  destruct (negb _); [ | apply (always_ret _ model_only_refl)].
  apply (always_bind _ model_only_trans).
  - apply (always_bind _ model_only_trans);
      [apply invoke_with_retry_model_only | intros ?].
    apply (always_ret _ model_only_refl).
  - intros ?. apply (always_ret _ model_only_refl).
Qed.

Lemma generate_post_model_only (env : Env) (day : Z) :
  always model_only (ContentGeneratorNode.generate_post env day).
Proof.
  unfold ContentGeneratorNode.generate_post.
  apply (always_bind _ model_only_trans);
    [apply (always_storage_get _ model_only_refl) | intros [topic_info | ]].
  - apply (always_bind _ model_only_trans);
      [apply (always_storage_get _ model_only_refl) | intros [ | ]].
    + apply (always_ret _ model_only_refl).
    + apply (always_bind _ model_only_trans);
        [apply (always_storage_get _ model_only_refl) | intros summary].
      apply (always_bind _ model_only_trans);
        [apply invoke_with_retry_model_only | intros raw].
      apply (always_bind _ model_only_trans);
        [apply finish_content_model_only | intros content].
      apply (always_ret _ model_only_refl).
  - apply (always_ret _ model_only_refl).
Qed.

Lemma regenerate_post_model_only (env : Env) (day : Z)
    (feedback : option string) :
  always model_only (ContentGeneratorNode.regenerate_post env day feedback).
Proof.
  unfold ContentGeneratorNode.regenerate_post.
  apply (always_bind _ model_only_trans);
    [apply (always_storage_get _ model_only_refl) | intros [topic_info | ]].
  - apply (always_bind _ model_only_trans);
      [apply (always_storage_get _ model_only_refl) | intros summary].
    apply (always_bind _ model_only_trans);
      [apply invoke_with_retry_model_only | intros raw].
    apply (always_bind _ model_only_trans);
      [apply finish_content_model_only | intros content].
    apply (always_ret _ model_only_refl).
  - apply (always_ret _ model_only_refl).
Qed.

Lemma preview_post_model_only (env : Env) (day : option Z) :
  always model_only (LinkedInPostingAgent.preview_post env day).
Proof.
  unfold LinkedInPostingAgent.preview_post.
  apply (always_bind _ model_only_trans);
    [ | intros d; apply generate_post_model_only].
  destruct day; [apply (always_ret _ model_only_refl)
                | apply (always_storage_get _ model_only_refl)].
Qed.

Lemma generation_is_read_only_nodes (env : Env) (state : AgentState) :
  always model_only (ContentGeneratorNode.__call__ env state).
Proof.
  unfold ContentGeneratorNode.__call__.
  apply (always_bind _ model_only_trans);
    [apply (always_storage_get _ model_only_refl) | intros stored].
  apply (always_bind _ model_only_trans);
    [ | intros result; apply (always_ret _ model_only_refl)].
  destruct (s_regenerate_feedback state) as [fb | ];
    [destruct (PyStr.truthy fb) | ];
    auto using generate_post_model_only, regenerate_post_model_only.
Qed.

(** X1.  Generation is read-only.  Whatever the model answers, and whether
    they return or raise, [generate_post], [regenerate_post], [preview_post]
    and the generator node leave the store as it was, read nothing from the
    console, make no publishing call and do not read the clock. *)
Theorem generation_is_read_only (env : Env) :
  (forall day, always model_only (ContentGeneratorNode.generate_post env day))
  /\ (forall day feedback,
        always model_only
          (ContentGeneratorNode.regenerate_post env day feedback))
  /\ (forall day, always model_only (LinkedInPostingAgent.preview_post env day))
  /\ (forall state,
        always model_only (ContentGeneratorNode.__call__ env state)).
Proof.
  split; [exact (generate_post_model_only env) | ].
  split; [exact (regenerate_post_model_only env) | ].
  split; [exact (preview_post_model_only env)
         | exact (generation_is_read_only_nodes env)].
Qed.

(** *** Retries *)

Lemma waited_none (w : World) : waited w 0 0 = w.
Proof. destruct w. unfold waited. cbn. f_equal. lia. Qed.

Lemma waited_more (w : World) (k : nat) (x y : Z) :
  waited (waited w 1 x) k y = waited w (S k) (x + y).
Proof. unfold waited. cbn. f_equal; lia. Qed.

Lemma attempt_limited (env : Env) (messages : list Message) (attempt : nat)
    (rest : list nat) (w : World) (message : string) :
  llm_invoke env (llm_calls w) messages = Fails message ->
  rate_limited message = true ->
  ContentGeneratorNode.invoke_attempts env messages (attempt :: rest) w
  = ContentGeneratorNode.invoke_attempts env messages rest
      (waited w 1 (30 * (Z.of_nat attempt + 1))).
Proof.
  intros Hreply Hlimit. cbn [ContentGeneratorNode.invoke_attempts].
  unfold bind at 1. unfold Effects.llm at 1. rewrite Hreply.
  unfold rate_limited in Hlimit. rewrite Hlimit.
  unfold bind, Effects.sleep. reflexivity.
Qed.

(** After [k] rate-limited attempts the loop stands at attempt [a + k],
    [k] calls and 30 (a+1) + ... + 30 (a+k) seconds later. *)
Lemma attempts_limited (env : Env) (messages : list Message) (k : nat) :
  forall (a n : nat) (w : World),
    limited_first env messages w k ->
    ContentGeneratorNode.invoke_attempts env messages (seq a (k + n)) w
    = ContentGeneratorNode.invoke_attempts env messages (seq (a + k) n)
        (waited w k
           (30 * Z.of_nat k * Z.of_nat a + 15 * Z.of_nat k * (Z.of_nat k + 1))).
Proof.
  induction k as [| k IH]; intros a n w Hlim.
  - cbn [Nat.add]. rewrite Nat.add_0_r.
    replace (30 * Z.of_nat 0 * Z.of_nat a + 15 * Z.of_nat 0 * (Z.of_nat 0 + 1))
      with 0 by lia.
    now rewrite waited_none.
  - destruct (Hlim O) as [message [Hreply Hlimit]]; [lia | ].
    cbn [Nat.add seq].
    rewrite (attempt_limited env messages a _ w message Hreply Hlimit).
    rewrite (IH (S a) n).
    + rewrite waited_more. replace (S a + k)%nat with (a + S k)%nat by lia.
      f_equal. f_equal. lia.
    + intros i Hi. destruct (Hlim (S i)) as [m' [Hr Hl]]; [lia | ].
      exists m'. split; [ | exact Hl].
      cbn [waited llm_calls]. rewrite <- Hr. f_equal. lia.
Qed.

(** X2.  What [_invoke_with_retry] does, by the replies of the model.  When
    the first [k] calls fail on a rate limit: with [k = max_retries] it
    raises "Max retries exceeded due to rate limiting" after exactly those
    calls; with [k < max_retries], an answer to the next call is returned,
    and any other failure of the next call is raised with its message.  In
    each case it has waited 30 + 60 + ... + 30 k seconds. *)
Theorem invoke_with_retry_by_replies (env : Env) (messages : list Message)
    (max_retries k : nat) (w : World)
    (Hlimited : limited_first env messages w k) :
  (k = max_retries ->
   ContentGeneratorNode._invoke_with_retry env messages max_retries w
   = (Raises (Exception "Max retries exceeded due to rate limiting"),
      waited w k (15 * Z.of_nat k * (Z.of_nat k + 1))))
  /\ ((k < max_retries)%nat ->
      forall content,
        llm_invoke env (k + llm_calls w) messages = Responds content ->
        ContentGeneratorNode._invoke_with_retry env messages max_retries w
        = (Returns content,
           waited w (S k) (15 * Z.of_nat k * (Z.of_nat k + 1))))
  /\ ((k < max_retries)%nat ->
      forall message,
        llm_invoke env (k + llm_calls w) messages = Fails message ->
        rate_limited message = false ->
        ContentGeneratorNode._invoke_with_retry env messages max_retries w
        = (Raises (Exception message),
           waited w (S k) (15 * Z.of_nat k * (Z.of_nat k + 1)))).
Proof.
  unfold ContentGeneratorNode._invoke_with_retry.
  assert (Hsum : 30 * Z.of_nat k * Z.of_nat 0
                 + 15 * Z.of_nat k * (Z.of_nat k + 1)
                 = 15 * Z.of_nat k * (Z.of_nat k + 1)) by lia.
  split; [ | split].
  - intros <-.
    replace k with (k + 0)%nat at 1 by lia.
    rewrite (attempts_limited env messages k 0 0 w Hlimited), Hsum.
    reflexivity.
  - intros Hk content Hreply.
    replace max_retries with (k + S (max_retries - S k))%nat by lia.
    rewrite (attempts_limited env messages k 0 _ w Hlimited), Hsum.
    cbn [seq ContentGeneratorNode.invoke_attempts].
    unfold bind, Effects.llm. cbn [waited llm_calls]. rewrite Hreply.
    unfold ret, waited. cbn. reflexivity.
  - intros Hk message Hreply Hother.
    replace max_retries with (k + S (max_retries - S k))%nat by lia.
    rewrite (attempts_limited env messages k 0 _ w Hlimited), Hsum.
    cbn [seq ContentGeneratorNode.invoke_attempts].
    unfold bind, Effects.llm. cbn [waited llm_calls]. rewrite Hreply.
    unfold rate_limited in Hother. rewrite Hother.
    unfold raise, waited. cbn. reflexivity.
Qed.

Lemma attempt_answered (env : Env) (messages : list Message) (attempt : nat)
    (rest : list nat) (w : World) (content : string) :
  llm_invoke env (llm_calls w) messages = Responds content ->
  ContentGeneratorNode.invoke_attempts env messages (attempt :: rest) w
  = (Returns content, waited w 1 0).
Proof.
  intros Hreply. cbn [ContentGeneratorNode.invoke_attempts].
  unfold bind, Effects.llm. rewrite Hreply. unfold ret, waited. cbn.
  do 2 f_equal. lia.
Qed.

Lemma attempt_failed (env : Env) (messages : list Message) (attempt : nat)
    (rest : list nat) (w : World) (message : string) :
  llm_invoke env (llm_calls w) messages = Fails message ->
  rate_limited message = false ->
  ContentGeneratorNode.invoke_attempts env messages (attempt :: rest) w
  = (Raises (Exception message), waited w 1 0).
Proof.
  intros Hreply Hother. cbn [ContentGeneratorNode.invoke_attempts].
  unfold bind, Effects.llm. rewrite Hreply.
  unfold rate_limited in Hother. rewrite Hother. unfold raise, waited. cbn.
  do 2 f_equal. lia.
Qed.

Lemma invoke_attempts_bounds (env : Env) (messages : list Message) (n : nat) :
  forall (a : nat) (w : World),
    let w' :=
      snd (ContentGeneratorNode.invoke_attempts env messages (seq a n) w) in
    (llm_calls w <= llm_calls w' <= llm_calls w + n)%nat
    /\ slept w <= slept w'
       <= slept w + 30 * Z.of_nat n * Z.of_nat a
          + 15 * Z.of_nat n * (Z.of_nat n + 1).
Proof.
  induction n as [| n IH]; intros a w; cbv zeta.
  - cbn. lia.
  - cbn [seq]. rewrite Nat2Z.inj_succ. unfold Z.succ.
    pose proof (Nat2Z.is_nonneg n) as Hn. pose proof (Nat2Z.is_nonneg a) as Ha.
    assert (Hna : 0 <= Z.of_nat n * Z.of_nat a)
      by (apply Z.mul_nonneg_nonneg; lia).
    assert (Hnn : 0 <= Z.of_nat n * Z.of_nat n)
      by (apply Z.mul_nonneg_nonneg; lia).
    destruct (llm_invoke env (llm_calls w) messages) as [content | message]
      eqn:Hreply.
    + rewrite (attempt_answered env messages a _ w content Hreply).
      cbn [snd waited llm_calls slept]. lia.
    + destruct (rate_limited message) eqn:Hlimit.
      * rewrite (attempt_limited env messages a _ w message Hreply Hlimit).
        specialize (IH (S a) (waited w 1 (30 * (Z.of_nat a + 1)))).
        cbv zeta in IH. cbn [waited llm_calls slept] in IH.
        rewrite Nat2Z.inj_succ in IH. unfold Z.succ in IH. lia.
      * rewrite (attempt_failed env messages a _ w message Hreply Hlimit).
        cbn [snd waited llm_calls slept]. lia.
Qed.

(** X3.  The cost of [_invoke_with_retry], whatever the model does: at most
    [max_retries] calls and at most 30 + 60 + ... + 30 [max_retries] seconds
    of waiting, which is 180 seconds at the three retries the generator
    uses. *)
Theorem invoke_with_retry_cost (env : Env) (messages : list Message)
    (max_retries : nat) (w : World) :
  let w' :=
    snd (ContentGeneratorNode._invoke_with_retry env messages max_retries w) in
  (llm_calls w <= llm_calls w' <= llm_calls w + max_retries)%nat
  /\ slept w <= slept w'
     <= slept w + 15 * Z.of_nat max_retries * (Z.of_nat max_retries + 1)
  /\ (max_retries = 3%nat -> slept w' <= slept w + 180).
Proof.
  cbv zeta. unfold ContentGeneratorNode._invoke_with_retry.
  pose proof (invoke_attempts_bounds env messages max_retries 0 w) as H.
  cbv zeta in H. change (Z.of_nat 0) with 0 in H.
  rewrite Z.mul_0_r, Z.add_0_r in H.
  split; [lia | split; [lia | ]].
  intros ->. change (Z.of_nat 3) with 3 in H. lia.
Qed.

(** *** Refusals and drafts *)

(** X4.  The two refusals of [generate_post] cost nothing and come in a
    fixed order.  A day without a curriculum entry is refused as not found,
    posted or not; a day with an entry that is in the history is refused as
    a duplicate.  In both cases the world is left as it was: the model is
    not called.  [regenerate_post] refuses a day without an entry the same
    way. *)
Theorem generate_post_refusals (env : Env) (day : Z) (w : World) :
  (StorageManager.get_topic_for_day (files w) day = None ->
   ContentGeneratorNode.generate_post env day w
   = (Returns
        (GenerationFailed ("No topic found for day " ++ PyStr.of_int day) false),
      w)
   /\ forall feedback,
        ContentGeneratorNode.regenerate_post env day feedback w
        = (Returns
             (GenerationFailed ("No topic found for day " ++ PyStr.of_int day)
                false),
           w))
  /\ (StorageManager.get_topic_for_day (files w) day <> None ->
      StorageManager.is_day_posted (files w) day = true ->
      ContentGeneratorNode.generate_post env day w
      = (Returns
           (GenerationFailed
              ("Day " ++ PyStr.of_int day ++ " has already been posted") true),
         w)).
Proof.
  unfold ContentGeneratorNode.generate_post,
    ContentGeneratorNode.regenerate_post, bind, Effects.storage_get.
  split.
  - intros ->. split; [reflexivity | intros feedback; reflexivity].
  - intros Htopic Hposted.
    destruct (StorageManager.get_topic_for_day (files w) day);
      [ | contradiction].
    now rewrite Hposted.
Qed.

Lemma take_drop (n : nat) (s : string) :
  s = PyStr.take n s ++ PyStr.drop n s.
Proof.
  revert s; induction n as [| n IH]; intros [| c s]; cbn; try reflexivity.
  f_equal. apply IH.
Qed.

Lemma slice_to_take (k : Z) (s : string) :
  exists n, PyStr.slice_to k s = PyStr.take n s.
Proof. unfold PyStr.slice_to. eexists. reflexivity. Qed.

Lemma truncate_content_bound (content : string) :
  PyStr.len (ContentGeneratorNode._truncate_content content) <= MAX_POST_LENGTH
  /\ exists n,
       ContentGeneratorNode._truncate_content content = PyStr.take n content.
Proof.
  destruct (Z.le_gt_cases (PyStr.len content) MAX_POST_LENGTH) as [Hs | Hl].
  - assert (E : ContentGeneratorNode._truncate_content content = content).
    { unfold ContentGeneratorNode._truncate_content.
      destruct (Z.leb_spec (PyStr.len content) MAX_POST_LENGTH);
        [reflexivity | lia]. }
    rewrite E. split; [exact Hs | ].
    exists (String.length content). clear.
    induction content; cbn; [reflexivity | now f_equal].
  - assert (Hlong : PyStr.len content > MAX_POST_LENGTH) by lia.
    destruct (truncate_cases content Hlong)
      as [[j [[_ [_ Hj]] [_ [Eo El]]]] | [_ [Eo El]]].
    + split; [unfold cut_point, MAX_POST_LENGTH in *; lia
             | rewrite Eo; apply slice_to_take].
    + split; [unfold cut_point, MAX_POST_LENGTH in *; lia
             | rewrite Eo; apply slice_to_take].
Qed.

(** X5.  [_truncate_content] on any text: the result is at most 3000
    characters long, it is the beginning of the text (no character is
    changed or moved), a text within the limit is returned as it is, and
    truncating twice is truncating once. *)
Theorem truncate_content_is_prefix (content : string) :
  let out := ContentGeneratorNode._truncate_content content in
  PyStr.len out <= MAX_POST_LENGTH
  /\ (exists rest, content = out ++ rest)
  /\ (PyStr.len content <= MAX_POST_LENGTH -> out = content)
  /\ ContentGeneratorNode._truncate_content out = out.
Proof.
  cbv zeta.
  assert (Hshort : forall s, PyStr.len s <= MAX_POST_LENGTH ->
                             ContentGeneratorNode._truncate_content s = s).
  { intros s Hs. unfold ContentGeneratorNode._truncate_content.
    destruct (Z.leb_spec (PyStr.len s) MAX_POST_LENGTH); [reflexivity | lia]. }
  destruct (truncate_content_bound content) as [Hmax [n En]].
  split; [exact Hmax | split; [ | split; [apply Hshort | exact (Hshort _ Hmax)]]].
  exists (PyStr.drop n content). rewrite En. apply take_drop.
Qed.

(** X6.  The shape of every draft [generate_post] returns.  It is for the
    day asked, with the topic, category and difficulty of that day's
    curriculum entry, and it is not marked regenerated.  Its content begins
    with a text of at most 3000 characters that counts as the model's
    answer after truncation; it is that text alone when one of its last 200
    characters is ['#'], and otherwise that text, the separator and the
    hashtags, so that it is at most 3006 characters plus the hashtags. *)
Theorem generate_post_draft_shape (env : Env) (day : Z) (w w' : World)
    (d : Draft)
    (Hdraft : ContentGeneratorNode.generate_post env day w
              = (Returns (Generated d), w')) :
  d_day d = day /\ d_regenerated d = false
  /\ d_char_count d = PyStr.len (d_content d)
  /\ StorageManager.is_day_posted (files w) day = false
  /\ exists entry raw w1 base,
       StorageManager.get_topic_for_day (files w) day = Some entry
       /\ d_topic d = c_topic entry /\ d_category d = c_category entry
       /\ d_difficulty d = c_difficulty entry
       /\ ContentGeneratorNode._invoke_with_retry env
            [SystemMessage
               "You are an expert AI educator creating engaging LinkedIn content.";
             HumanMessage
               (ContentGeneratorNode.story_prompt env day entry
                  (StorageManager.get_recent_posts_summary (files w) 3))] 3 w
          = (Returns raw, w1)
       /\ base = ContentGeneratorNode.limit_length raw
       /\ PyStr.len base <= MAX_POST_LENGTH
       /\ ((hash_in_tail base /\ d_content d = base)
           \/ (~ hash_in_tail base
               /\ exists hashtags,
                    d_content d
                    = base ++ ContentGeneratorNode.hashtag_separator ++ hashtags
                    /\ PyStr.len (d_content d)
                       = PyStr.len base + 6 + PyStr.len hashtags)).
Proof.
  revert Hdraft.
  unfold ContentGeneratorNode.generate_post, bind, Effects.storage_get.
  destruct (StorageManager.get_topic_for_day (files w) day) as [entry | ];
    [ | intros [=]].
  destruct (StorageManager.is_day_posted (files w) day); [intros [=] | ].
  destruct (ContentGeneratorNode._invoke_with_retry _ _ _ _) as [[raw | e] w1]
    eqn:Hraw; [ | intros [=]].
  unfold ContentGeneratorNode.finish_content,
    ContentGeneratorNode.ensure_hashtags.
  assert (Hbase : PyStr.len (ContentGeneratorNode.limit_length raw)
                  <= MAX_POST_LENGTH).
  { unfold ContentGeneratorNode.limit_length.
    destruct (Z.gtb_spec (PyStr.len raw) MAX_POST_LENGTH); [ | lia].
    apply (truncate_content_bound raw). }
  destruct (PyStr.contains "#"
              (PyStr.slice_from (-200) (ContentGeneratorNode.limit_length raw)))
    eqn:Hhash; cbn [negb].
  - unfold ret. intros [= <- _]. cbn [d_day d_regenerated d_char_count
      d_content d_topic d_category d_difficulty].
    do 4 (split; [reflexivity | ]).
    exists entry, raw, w1, (ContentGeneratorNode.limit_length raw).
    do 4 (split; [reflexivity | ]).
    split; [exact Hraw | ]. split; [reflexivity | ].
    split; [exact Hbase | ]. left.
    split; [now apply hash_in_tail_spec | reflexivity].
  - unfold bind.
    destruct (ContentGeneratorNode._generate_hashtags _ _ _)
      as [[hashtags | e] w2]; [ | intros [=]].
    unfold ret. intros [= <- _]. cbn [d_day d_regenerated d_char_count
      d_content d_topic d_category d_difficulty].
    do 4 (split; [reflexivity | ]).
    exists entry, raw, w1, (ContentGeneratorNode.limit_length raw).
    do 4 (split; [reflexivity | ]).
    split; [exact Hraw | ]. split; [reflexivity | ].
    split; [exact Hbase | ]. right. split.
    + intros H. apply hash_in_tail_spec in H. congruence.
    + exists hashtags. split; [reflexivity | ].
      unfold PyStr.len. rewrite append_length. cbn [String.length]. lia.
Qed.

(* ================================================================== *)
(** ** The approval handler, beyond the claims *)

Lemma ends_edit_false (line : string) :
  ends_edit line = false ->
  (PyStr.upper (PyStr.strip line) =? "END")%string = false
  /\ (PyStr.upper (PyStr.strip line) =? "CANCEL")%string = false.
Proof. unfold ends_edit. apply orb_false_elim. Qed.

(** The editor's loop: lines are collected up to the first line that ends
    the editor; without such a line the console runs out. *)
Lemma read_edit_lines_runs_out (pending : list string) :
  forall lines,
    Forall (fun line => ends_edit line = false) pending ->
    ApprovalHandlerNode.read_edit_lines lines pending = (Raises EOFError, []).
Proof.
  induction pending as [| line rest IH]; intros lines H; [reflexivity | ].
  inversion H as [| ? ? Hline Hrest]; subst.
  destruct (ends_edit_false line Hline) as [He Hc].
  cbn [ApprovalHandlerNode.read_edit_lines]. rewrite He, Hc. now apply IH.
Qed.

Lemma read_edit_lines_stops (typed : list string) :
  forall lines line rest,
    Forall (fun l => ends_edit l = false) typed ->
    ends_edit line = true ->
    ApprovalHandlerNode.read_edit_lines lines (typed ++ line :: rest)%list
    = (Returns
         (if (PyStr.upper (PyStr.strip line) =? "END")%string
          then Some (lines ++ typed)%list else None),
       rest).
Proof.
  induction typed as [| l typed IH]; intros lines line rest Htyped Hline.
  - cbn [app ApprovalHandlerNode.read_edit_lines]. rewrite app_nil_r.
    unfold ends_edit in Hline.
    destruct (PyStr.upper (PyStr.strip line) =? "END")%string; [reflexivity | ].
    cbn [orb] in Hline. now rewrite Hline.
  - inversion Htyped as [| ? ? Hl Hrest]; subst.
    destruct (ends_edit_false l Hl) as [He Hc].
    cbn [app ApprovalHandlerNode.read_edit_lines]. rewrite He, Hc.
    rewrite (IH (lines ++ [l])%list line rest Hrest Hline).
    now rewrite <- app_assoc.
Qed.

(** X7.  What [get_edit_content] returns, by what is typed.  Without any
    END or CANCEL line it raises the end-of-file error once the console is
    empty.  Otherwise it reads up to the first such line and no further:
    after CANCEL the original comes back and the typed lines are dropped;
    after END the typed lines come back joined by newlines, unless they are
    blank, in which case the original comes back.  So the text returned is
    the original or has a character that is not a blank. *)
Theorem get_edit_content_by_input (original : string) (w : World) :
  (Forall (fun line => ends_edit line = false) (console w) ->
   ApprovalHandlerNode.get_edit_content original w
   = (Raises EOFError, Effects.set_console w []))
  /\ (forall typed line rest,
        console w = (typed ++ line :: rest)%list ->
        Forall (fun l => ends_edit l = false) typed ->
        ends_edit line = true ->
        ApprovalHandlerNode.get_edit_content original w
        = (Returns
             (if (PyStr.upper (PyStr.strip line) =? "END")%string
              then
                if negb (PyStr.truthy
                           (PyStr.strip (PyStr.join PyStr.nl typed)))
                then original else PyStr.join PyStr.nl typed
              else original),
           Effects.set_console w rest))
  /\ (forall edited w',
        ApprovalHandlerNode.get_edit_content original w = (Returns edited, w') ->
        edited = original \/ ~ blank edited).
Proof.
  unfold ApprovalHandlerNode.get_edit_content. split; [ | split].
  - intros H. now rewrite (read_edit_lines_runs_out (console w) [] H).
  - intros typed line rest Hconsole Htyped Hline.
    rewrite Hconsole, (read_edit_lines_stops typed [] line rest Htyped Hline).
    destruct (PyStr.upper (PyStr.strip line) =? "END")%string; [ | reflexivity].
    cbn [app]. now destruct (negb _).
  - intros edited w'.
    destruct (ApprovalHandlerNode.read_edit_lines [] (console w))
      as [[[lines | ] | e] rest]; [ | intros [= <- _]; now left | intros [=]].
    destruct (PyStr.truthy (PyStr.strip (PyStr.join PyStr.nl lines))) eqn:E;
      cbn [negb]; intros [= <- _]; [right | now left].
    unfold blank. intros Hb. rewrite Hb in E. discriminate E.
Qed.

Lemma pending_only_refl (w : World) : pending_only w w.
Proof. repeat split. Qed.

Lemma pending_only_trans (a b c : World) :
  pending_only a b -> pending_only b c -> pending_only a c.
Proof.
  unfold pending_only.
  intros [A1 [A2 [A3 [A4 [A5 [A6 [A7 A8]]]]]]]
         [B1 [B2 [B3 [B4 [B5 [B6 [B7 B8]]]]]]].
  repeat split; congruence.
Qed.

Lemma input_pending_only : always pending_only Effects.input.
Proof. intros w. unfold Effects.input. destruct (console w); repeat split. Qed.

Lemma now_pending_only (env : Env) : always pending_only (Effects.now env).
Proof. intros w. repeat split. Qed.

Lemma set_pending_only (content : PendingApproval) :
  always pending_only
    (Effects.storage_do
       (fun fs => StorageManager.set_pending_approval fs content)).
Proof. intros w. repeat split. Qed.

Lemma get_edit_content_pending_only (original : string) :
  always pending_only (ApprovalHandlerNode.get_edit_content original).
Proof.
  intros w. unfold ApprovalHandlerNode.get_edit_content.
  destruct (ApprovalHandlerNode.read_edit_lines [] (console w))
    as [[[lines | ] | e] rest]; [destruct (negb _) | | ]; repeat split.
Qed.

Lemma request_approval_pending_only (env : Env) (d : Draft) :
  always pending_only (ApprovalHandlerNode.request_approval env d).
Proof.
  unfold ApprovalHandlerNode.request_approval,
    ApprovalHandlerNode.get_user_decision,
    ApprovalHandlerNode.get_rejection_feedback, Effects.Prompt_ask.
  repeat first
    [ apply (always_ret _ pending_only_refl)
    | apply input_pending_only
    | apply now_pending_only
    | apply set_pending_only
    | apply get_edit_content_pending_only
    | apply (always_bind _ pending_only_trans); [ | intros ? ]
    | match goal with
      | |- always _ (if ?b then _ else _) => destruct b
      end ].
Qed.

(** X8.  The approval node can only set the pending draft.  Whatever is
    typed, and whether it returns or raises, it calls neither the model nor
    the publishing client, and it leaves the curriculum, the history, the
    current day and the two dates of the store as they were. *)
Theorem approval_node_pending_only (env : Env) (state : AgentState) :
  always pending_only (ApprovalHandlerNode.__call__ env state).
Proof.
  unfold ApprovalHandlerNode.__call__.
  destruct (s_generated_content state) as [[error dup | d] | ];
    try apply (always_ret _ pending_only_refl).
  apply (always_bind _ pending_only_trans);
    [ | intros ?; apply (always_ret _ pending_only_refl)].
  destruct (truthy_flag (s_auto_approve state));
    [apply (always_ret _ pending_only_refl)
    | apply request_approval_pending_only].
Qed.


(* ================================================================== *)
(** ** The publisher, beyond the claims *)


(** X12.  Reject, quit and every decision the publisher does not know have
    no effect outside the workflow state: the world is left exactly as it
    was, with no publishing call and no write to the store.  A reject asks
    for regeneration and hands on the feedback; a quit marks the workflow
    complete and quit; anything else, "error" included, marks it complete
    with the result "Unknown decision: ..." *)
Theorem publisher_without_effect (env : Env) (state : AgentState) (w : World)
    (decision : string)
    (Hseen : decision_seen state = Some decision)
    (Hother : decision <> "approve" /\ decision <> "skip") :
  exists state',
    LinkedInPosterNode.__call__ env state w = (Returns state', w)
    /\ (decision = "reject" ->
        s_needs_regeneration state' = Some true
        /\ s_workflow_complete state' = Some false
        /\ s_regenerate_feedback state'
           = LinkedInPosterNode.get_field (s_approval_result state) a_feedback
        /\ s_posting_result state' = s_posting_result state)
    /\ (decision = "quit" ->
        s_posting_result state' = Some QuitAction
        /\ s_workflow_complete state' = Some true
        /\ s_quit_requested state' = Some true)
    /\ (decision <> "reject" -> decision <> "quit" ->
        s_posting_result state'
        = Some (UnknownDecision ("Unknown decision: " ++ decision))
        /\ s_workflow_complete state' = Some true).
Proof.
  destruct Hother as [Na Ns].
  unfold LinkedInPosterNode.__call__. unfold decision_seen in Hseen.
  rewrite Hseen.
  destruct (String.eqb_spec decision "approve") as [E | _]; [contradiction | ].
  destruct (String.eqb_spec decision "skip") as [E | _]; [contradiction | ].
  destruct (String.eqb_spec decision "reject") as [-> | Nr].
  { eexists. split; [reflexivity | ].
    split; [intros _; now repeat split | ].
    split; [discriminate | intros H; contradiction]. }
  destruct (String.eqb_spec decision "quit") as [-> | Nq].
  { eexists. split; [reflexivity | ].
    split; [discriminate | ].
    split; [intros _; now repeat split | intros _ H; contradiction]. }
  eexists. split; [reflexivity | ].
  split; [intros H; contradiction | ].
  split; [intros H; contradiction | intros _ _; now split].
Qed.

(** The store after a successful [post_content]. *)
Lemma post_content_success (env : Env) (content : string) (day : Z)
    (topic : string) (w : World) :
  api_success (create_text_post env (api_calls w) content) = true ->
  let post_id :=
    match api_post_id (create_text_post env (api_calls w) content) with
    | Some p => p
    | None => ""
    end in
  let t (i : nat) := isoformat_now env (i + clock_reads w) in
  LinkedInPosterNode.post_content env content day topic w
  = (Returns (Posted post_id day topic (t 3%nat) (is_mock env)),
     {| files :=
          StorageManager.clear_pending_approval
            (StorageManager.mark_post_completed
               (StorageManager.add_to_history (files w) day topic content
                  (Some post_id) (t 0%nat) (t 1%nat))
               day (t 2%nat));
        console := console w; llm_calls := llm_calls w;
        api_calls := S (api_calls w);
        clock_reads := 4 + clock_reads w; slept := slept w |}).
Proof.
  intros Hok. cbv zeta.
  unfold LinkedInPosterNode.post_content, bind, Effects.api_post.
  rewrite Hok. reflexivity.
Qed.

(** X13.  A successful publish is recorded once and in full.  When the
    publishing call reports success, [post_content] makes that one call,
    returns the post id (the empty string when the reply has none), and the
    history is the old one with one entry added at its end: the day, topic
    and text published, the post id, and the length of the text.  The
    pending draft is cleared, the status is "active", the last post date is
    set, and the current day moves on by one, up to day 90. *)
Theorem post_content_records_once (env : Env) (content : string) (day : Z)
    (topic : string) (w : World)
    (Hok : api_success (create_text_post env (api_calls w) content) = true) :
  exists post_id posted_at is_mock w' item,
    LinkedInPosterNode.post_content env content day topic w
    = (Returns (Posted post_id day topic posted_at is_mock), w')
    /\ post_id
       = match api_post_id (create_text_post env (api_calls w) content) with
         | Some p => p
         | None => ""
         end
    /\ posted_items (history_file (files w'))
       = (posted_items (history_file (files w)) ++ [item])%list
    /\ p_day item = day /\ p_topic item = topic /\ p_content item = content
    /\ p_linkedin_post_id item = Some post_id
    /\ p_char_count item = PyStr.len content
    /\ total_posts (history_file (files w'))
       = Z.of_nat (List.length (posted_items (history_file (files w)))) + 1
    /\ StorageManager.get_pending_approval (files w') = None
    /\ status (StorageManager.get_state (files w')) = "active"
    /\ last_post_date (StorageManager.get_state (files w')) <> None
    /\ StorageManager.get_current_day (files w')
       = (if StorageManager.get_current_day (files w) <? 90
          then StorageManager.get_current_day (files w) + 1
          else StorageManager.get_current_day (files w))
    /\ api_calls w' = S (api_calls w).
Proof.
  pose proof (post_content_success env content day topic w Hok) as E.
  cbv zeta in E.
  do 5 eexists. split; [exact E | ].
  cbn [files api_calls].
  unfold StorageManager.clear_pending_approval,
    StorageManager.mark_post_completed.
  split; [reflexivity | ].
  unfold StorageManager.get_pending_approval, StorageManager.get_state,
    StorageManager.get_current_day, StorageManager.get_state.
  cbn [StorageManager.update_state StorageManager.write_state state_file
       history_file StorageManager.get_state pending_approval status
       current_day last_post_date StorageManager.or_old kw_pending_approval
       kw_status kw_current_day kw_last_post_date kw_started_at].
  rewrite history_after_increment_day, pending_after_increment_day.
  cbn. rewrite length_app, Nat2Z.inj_add. cbn.
  unfold advanced.
  repeat split; try reflexivity; discriminate.
Qed.

(** X14.  Publishing a day closes it for [generate_post].  After a
    successful [post_content] for a day, the day is in the history, and
    [generate_post] for it, with any collaborators, is refused as not found
    or as a duplicate without a call to the model. *)
Theorem published_day_is_refused (env env' : Env) (content : string) (day : Z)
    (topic : string) (w : World)
    (Hok : api_success (create_text_post env (api_calls w) content) = true) :
  let w' := snd (LinkedInPosterNode.post_content env content day topic w) in
  StorageManager.is_day_posted (files w') day = true
  /\ exists error duplicate,
       ContentGeneratorNode.generate_post env' day w'
       = (Returns (GenerationFailed error duplicate), w')
       /\ (StorageManager.get_topic_for_day (files w) day <> None ->
           duplicate = true).
Proof.
  cbv zeta.
  rewrite (post_content_success env content day topic w Hok).
  cbn [snd].
  match goal with
  | |- StorageManager.is_day_posted (files ?v) _ = _ /\ _ => set (w' := v)
  end.
  assert (Hposted : StorageManager.is_day_posted (files w') day = true).
  { unfold w'. cbn [files].
    unfold StorageManager.is_day_posted, StorageManager.get_posted_days,
      StorageManager.get_history, StorageManager.clear_pending_approval,
      StorageManager.mark_post_completed.
    rewrite history_after_update_state, history_after_increment_day,
      history_after_update_state.
    apply (is_day_posted_after_add (files w)). }
  assert (Htopic : StorageManager.get_topic_for_day (files w') day
                   = StorageManager.get_topic_for_day (files w) day).
  { unfold w'. cbn [files].
    unfold StorageManager.get_topic_for_day, StorageManager.get_curriculum,
      StorageManager.clear_pending_approval,
      StorageManager.mark_post_completed, StorageManager.increment_day.
    now destruct (StorageManager.get_current_day _ <? 90). }
  clearbody w'. split; [exact Hposted | ].
  unfold ContentGeneratorNode.generate_post, bind, Effects.storage_get.
  rewrite Htopic.
  destruct (StorageManager.get_topic_for_day (files w) day).
  - cbv beta iota. rewrite Hposted.
    do 2 eexists. split; [reflexivity | reflexivity].
  - do 2 eexists. split; [reflexivity | intros H; now contradiction H].
Qed.

(* ================================================================== *)
(** ** The store over a whole run *)

Lemma store_grows_refl (fs : Files) : store_grows fs fs.
Proof.
  split; [reflexivity | split; [ | lia]].
  exists []. now rewrite app_nil_r.
Qed.

Lemma store_grows_trans (a b c : Files) :
  store_grows a b -> store_grows b c -> store_grows a c.
Proof.
  intros [C1 [[l1 H1] D1]] [C2 [[l2 H2] D2]].
  split; [congruence | split; [ | lia]].
  exists (l1 ++ l2)%list. now rewrite H2, H1, app_assoc.
Qed.

Lemma well_run_refl (w : World) : well_run w w.
Proof. split; [apply store_grows_refl | intros H; exact H]. Qed.

Lemma well_run_trans (a b c : World) :
  well_run a b -> well_run b c -> well_run a c.
Proof.
  intros [G1 K1] [G2 K2]. split.
  - exact (store_grows_trans _ _ _ G1 G2).
  - intros H. apply K2, K1, H.
Qed.

Lemma well_run_same_files (w w' : World) : files w' = files w -> well_run w w'.
Proof.
  intros E. unfold well_run, world_grows, keeps_sound. rewrite E.
  split; [apply store_grows_refl | trivial].
Qed.

Lemma well_run_storage_do (f : Files -> Files) :
  (forall fs, store_grows fs (f fs) /\ (store_sound fs -> store_sound (f fs))) ->
  always well_run (Effects.storage_do f).
Proof. intros H w. exact (H (files w)). Qed.

Lemma state_only_grows (fs fs' : Files) :
  curriculum_file fs' = curriculum_file fs ->
  history_file fs' = history_file fs ->
  current_day (state_file fs) <= current_day (state_file fs') ->
  store_grows fs fs'.
Proof.
  intros C H D. split; [exact C | split; [ | exact D]].
  exists []. now rewrite H, app_nil_r.
Qed.

Lemma set_pending_well (content : PendingApproval) (fs : Files) :
  store_grows fs (StorageManager.set_pending_approval fs content)
  /\ (store_sound fs ->
      store_sound (StorageManager.set_pending_approval fs content)).
Proof.
  split; [apply state_only_grows; [reflexivity | reflexivity | apply Z.le_refl] | ].
  intros [_ [Hh Hd]].
  split; [apply invariant_after_set | split; [exact Hh | exact Hd]].
Qed.

Lemma clear_pending_well (fs : Files) :
  store_grows fs (StorageManager.clear_pending_approval fs)
  /\ (store_sound fs -> store_sound (StorageManager.clear_pending_approval fs)).
Proof.
  split; [apply state_only_grows; [reflexivity | reflexivity | apply Z.le_refl] | ].
  intros [_ [Hh Hd]].
  split; [apply invariant_after_clear | split; [exact Hh | exact Hd]].
Qed.

Lemma increment_day_well (fs : Files) :
  store_grows fs (StorageManager.increment_day fs)
  /\ (store_sound fs -> store_sound (StorageManager.increment_day fs)).
Proof.
  assert (Hc : curriculum_file (StorageManager.increment_day fs)
               = curriculum_file fs).
  { unfold StorageManager.increment_day.
    now destruct (StorageManager.get_current_day fs <? 90). }
  assert (Hday : current_day (state_file (StorageManager.increment_day fs))
                 = advanced (current_day (state_file fs)))
    by (now rewrite pending_after_increment_day).
  split.
  - apply state_only_grows;
      [exact Hc | apply history_after_increment_day | ].
    rewrite Hday. unfold advanced.
    destruct (Z.ltb_spec (current_day (state_file fs)) 90); lia.
  - intros [Hp [Hh Hd]]. split; [now apply invariant_after_increment | split].
    + unfold history_consistent.
      now rewrite history_after_increment_day.
    + unfold day_in_range in *. rewrite Hday. unfold advanced.
      destruct (Z.ltb_spec (current_day (state_file fs)) 90); lia.
Qed.

Lemma mark_post_completed_well (day : Z) (now : string) (fs : Files) :
  store_grows fs (StorageManager.mark_post_completed fs day now)
  /\ (store_sound fs ->
      store_sound (StorageManager.mark_post_completed fs day now)).
Proof.
  unfold StorageManager.mark_post_completed.
  match goal with
  | |- context [StorageManager.increment_day ?x] => set (fs1 := x)
  end.
  assert (G1 : store_grows fs fs1)
    by (apply state_only_grows; [reflexivity | reflexivity | apply Z.le_refl]).
  assert (S1 : store_sound fs -> store_sound fs1).
  { intros [Hp [Hh Hd]]. split; [ | split; [exact Hh | exact Hd]].
    revert Hp. apply invariant_from_state; reflexivity. }
  destruct (increment_day_well fs1) as [G2 S2].
  split; [exact (store_grows_trans _ _ _ G1 G2) | intros H; apply S2, S1, H].
Qed.

Lemma add_to_history_well (day : Z) (topic content : string)
    (post_id : option string) (t1 t2 : string) (fs : Files) :
  store_grows fs
    (StorageManager.add_to_history fs day topic content post_id t1 t2)
  /\ (store_sound fs ->
      store_sound
        (StorageManager.add_to_history fs day topic content post_id t1 t2)).
Proof.
  split.
  - split; [reflexivity | split; [ | apply Z.le_refl]].
    eexists. cbn. reflexivity.
  - intros [Hp [[Hcount Hitems] Hd]]. split; [ | split; [ | exact Hd]].
    + revert Hp. apply invariant_from_state; reflexivity.
    + split; [reflexivity | ]. cbn.
      apply Forall_app. split; [exact Hitems | ].
      constructor; [reflexivity | constructor].
Qed.

Lemma input_well : always well_run Effects.input.
Proof.
  intros w. unfold Effects.input.
  destruct (console w); now apply well_run_same_files.
Qed.

Lemma now_well (env : Env) : always well_run (Effects.now env).
Proof. intros w. now apply well_run_same_files. Qed.

Lemma api_post_well (env : Env) (content : string) :
  always well_run (Effects.api_post env content).
Proof. intros w. now apply well_run_same_files. Qed.

Lemma model_only_well {A} (m : M A) : always model_only m -> always well_run m.
Proof.
  apply always_weaken. intros w w' [E _]. now apply well_run_same_files.
Qed.

Lemma get_edit_content_well (original : string) :
  always well_run (ApprovalHandlerNode.get_edit_content original).
Proof.
  intros w. apply well_run_same_files.
  destruct (ApprovalHandlerNode.get_edit_content original w) as [r w'] eqn:E.
  exact (proj1 (get_edit_content_keeps_store original w w' r E)).
Qed.

(** Every node moves the store forward and keeps it sound. *)
Lemma node_well (env : Env) (n : Node) (state : AgentState) :
  always well_run (LinkedInPostingAgent.node env n state).
Proof.
  destruct n; cbn [LinkedInPostingAgent.node].
  - apply model_only_well, generation_is_read_only_nodes.
  - unfold ApprovalHandlerNode.__call__,
      ApprovalHandlerNode.request_approval,
      ApprovalHandlerNode.get_user_decision,
      ApprovalHandlerNode.get_rejection_feedback, Effects.Prompt_ask.
    repeat first
      [ apply (always_ret _ well_run_refl)
      | apply input_well
      | apply now_well
      | apply get_edit_content_well
      | apply well_run_storage_do; intros fs; apply set_pending_well
      | apply (always_bind _ well_run_trans); [ | intros ? ]
      | match goal with
        | |- always _ (if ?b then _ else _) => destruct b
        | |- always _ (match ?x with _ => _ end) => destruct x
        end ].
  - unfold LinkedInPosterNode.__call__, LinkedInPosterNode.post_content,
      LinkedInPosterNode.handle_skip.
    repeat first
      [ apply (always_ret _ well_run_refl)
      | apply (always_item _ well_run_refl)
      | apply now_well
      | apply api_post_well
      | apply well_run_storage_do; intros fs;
        first [ apply add_to_history_well
              | apply mark_post_completed_well
              | apply clear_pending_well
              | apply increment_day_well ]
      | apply (always_bind _ well_run_trans); [ | intros ? ]
      | match goal with
        | |- always _ (if ?b then _ else _) => destruct b
        end ].
Qed.

Lemma invoke_from_well (env : Env) (limit : nat) :
  forall n state,
    always well_run (LinkedInPostingAgent.invoke_from env limit n state).
Proof.
  induction limit as [| limit IH]; intros n state;
    cbn [LinkedInPostingAgent.invoke_from].
  - apply (always_raise _ well_run_refl).
  - apply (always_bind _ well_run_trans); [apply node_well | intros state'].
    destruct (LinkedInPostingAgent.next n state');
      [apply IH | apply (always_ret _ well_run_refl)].
Qed.

Lemma run_well (env : Env) (limit : nat) (day : option Z) (auto : bool) :
  always well_run (LinkedInPostingAgent.run env limit day auto).
Proof.
  unfold LinkedInPostingAgent.run.
  apply (always_bind _ well_run_trans); [ | intros d; apply invoke_from_well].
  destruct day; [apply (always_ret _ well_run_refl)
                | apply (always_storage_get _ well_run_refl)].
Qed.

(** X15.  A run only ever adds to the store.  However it ends, with any
    answers, model and publishing client, and for any recursion limit, a
    run leaves the curriculum as it was, keeps every entry of the history in
    place (new ones are added at the end), and never moves the current day
    back. *)
Theorem run_only_adds (env : Env) (limit : nat) (day : option Z)
    (auto : bool) (w : World) :
  let w' := snd (LinkedInPostingAgent.run env limit day auto w) in
  curriculum_file (files w') = curriculum_file (files w)
  /\ (exists added,
        posted_items (history_file (files w'))
        = (posted_items (history_file (files w)) ++ added)%list)
  /\ StorageManager.get_current_day (files w)
     <= StorageManager.get_current_day (files w').
Proof. exact (proj1 (run_well env limit day auto w)). Qed.

(** X16.  A run keeps the store sound.  From a store in which a draft is
    pending exactly when the status says so, the history counts its entries
    and every entry counts its characters, and the current day lies between
    1 and 90, every run, however it ends, leaves a store with the same
    properties. *)
Theorem run_keeps_store_sound (env : Env) (limit : nat) (day : option Z)
    (auto : bool) (w : World)
    (Hsound : store_sound (files w)) :
  store_sound (files (snd (LinkedInPostingAgent.run env limit day auto w))).
Proof. exact (proj2 (run_well env limit day auto w) Hsound). Qed.

(* ================================================================== *)
(** ** The shape of a run *)

Lemma not_reject_match {A} (d : option string) (x y : A) :
  d <> Some "reject" ->
  match d with
  | Some "reject" => x
  | _ => y
  end = y.
Proof.
  intros H. destruct d as [d | ]; [ | reflexivity].
  destruct (String.eqb_spec d "reject") as [-> | Nr]; [now contradiction H | ].
  clear H.
  repeat (match goal with
          | |- context [match ?v with _ => _ end] =>
              first [is_var v | fail 1]; destruct v
          end; try reflexivity; try contradiction).
Qed.





(* ================================================================== *)
(** ** The progress store, beyond the claims *)

(** X19.  [get_topic_for_day] returns the first curriculum entry of that
    day: an entry of the curriculum, for the day asked, with no entry for
    that day before it.  It returns nothing exactly when the curriculum has
    no entry for the day. *)
Theorem get_topic_for_day_first (fs : Files) (day : Z) :
  match StorageManager.get_topic_for_day fs day with
  | Some item =>
      c_day item = day
      /\ exists before after,
           StorageManager.get_all_topics fs = (before ++ item :: after)%list
           /\ forall e, In e before -> c_day e <> day
  | None => forall e, In e (StorageManager.get_all_topics fs) -> c_day e <> day
  end.
Proof.
  unfold StorageManager.get_topic_for_day, StorageManager.get_all_topics.
  induction (StorageManager.get_curriculum fs) as [| item items IH];
    cbn [StorageManager.first_with_day].
  - intros e [].
  - destruct (Z.eqb_spec (c_day item) day) as [E | N].
    + split; [exact E | ]. exists [], items. split; [reflexivity | intros e []].
    + destruct (StorageManager.first_with_day day items) as [found | ].
      * destruct IH as [E [before [after [Hsplit Hbefore]]]].
        split; [exact E | ]. exists (item :: before), after.
        split; [cbn; now rewrite Hsplit | ].
        intros e [<- | Hin]; [exact N | now apply Hbefore].
      * intros e [<- | Hin]; [exact N | now apply IH].
Qed.

Lemma is_day_posted_in (fs : Files) (day : Z) :
  StorageManager.is_day_posted fs day = true
  <-> In day (StorageManager.get_posted_days fs).
Proof.
  unfold StorageManager.is_day_posted. rewrite existsb_exists. split.
  - intros [d [Hin E]]. apply Z.eqb_eq in E. now subst.
  - intros Hin. exists day. split; [exact Hin | apply Z.eqb_refl].
Qed.

(** X20.  The posted days are the days of the history entries, and
    [add_to_history] adds exactly one: afterwards a day is posted when it is
    the day added or was posted before, and no other day changes. *)
Theorem add_to_history_posts_one_day (fs : Files) (day other : Z)
    (topic content : string) (post_id : option string) (t1 t2 : string) :
  (StorageManager.is_day_posted fs other = true
   <-> exists item,
         In item (posted_items (StorageManager.get_history fs))
         /\ p_day item = other)
  /\ StorageManager.is_day_posted
       (StorageManager.add_to_history fs day topic content post_id t1 t2) other
     = (other =? day) || StorageManager.is_day_posted fs other
  /\ StorageManager.get_posted_days
       (StorageManager.add_to_history fs day topic content post_id t1 t2)
     = (StorageManager.get_posted_days fs ++ [day])%list.
Proof.
  split; [ | split].
  - rewrite is_day_posted_in. unfold StorageManager.get_posted_days.
    rewrite in_map_iff. split; intros [item [H1 H2]]; exists item; tauto.
  - unfold StorageManager.is_day_posted, StorageManager.get_posted_days.
    cbn. rewrite map_app, existsb_app. cbn.
    rewrite orb_false_r. apply orb_comm.
  - unfold StorageManager.get_posted_days. cbn. now rewrite map_app.
Qed.

(** X21.  [get_recent_posts] returns the end of the history: for a positive
    count the last [count] entries, or all of them when there are fewer.  A
    count of zero returns the whole history, not an empty list. *)
Theorem get_recent_posts_is_tail (fs : Files) (count : Z) :
  let items := posted_items (StorageManager.get_history fs) in
  let recent := StorageManager.get_recent_posts fs count in
  (exists earlier, items = (earlier ++ recent)%list)
  /\ (0 < count ->
      Z.of_nat (List.length recent)
      = Z.min count (Z.of_nat (List.length items)))
  /\ (count = 0 -> recent = items)
  /\ LinkedInPostingAgent.get_history fs count = recent.
Proof.
  cbv zeta. unfold LinkedInPostingAgent.get_history,
    StorageManager.get_recent_posts.
  split; [ | split; [ | split; [ | reflexivity]]].
  - eexists. symmetry. apply firstn_skipn.
  - intros Hpos.
    destruct (Z.eqb_spec count 0); [lia | ].
    destruct (Z.ltb_spec count 0); [lia | ].
    rewrite length_skipn. lia.
  - intros ->. reflexivity.
Qed.

(* ================================================================== *)
(** ** The publishing clients *)

Lemma of_int_inj (a b : Z) : PyStr.of_int a = PyStr.of_int b -> a = b.
Proof.
  unfold PyStr.of_int. intros H.
  assert (Hnil : forall z, Z.to_int z <> Decimal.Pos Decimal.Nil
                           /\ Z.to_int z <> Decimal.Neg Decimal.Nil).
  { intros [| p | p]; cbn; split; try discriminate;
      intros [= E]; exact (DecimalPos.Unsigned.to_uint_nonnil p E). }
  apply (f_equal NilZero.int_of_string) in H.
  rewrite !NilZero.isi in H by apply Hnil.
  injection H as H. now apply DecimalZ.to_int_inj.
Qed.

(** X22.  The mock client never fails and never repeats itself: every call
    reports success with a post id, and two calls that return the same id
    are the same call. *)
Theorem mock_post_ids_distinct (n m : nat) (text text' : string) :
  api_success (MockLinkedInAPI.create_text_post n text) = true
  /\ api_post_id (MockLinkedInAPI.create_text_post n text) <> None
  /\ (api_post_id (MockLinkedInAPI.create_text_post n text)
      = api_post_id (MockLinkedInAPI.create_text_post m text') ->
      n = m).
Proof.
  split; [reflexivity | split; [discriminate | ]].
  unfold MockLinkedInAPI.create_text_post. cbn [api_post_id].
  intros [= H]. apply of_int_inj in H. lia.
Qed.

Lemma prefix_of_append (a s : string) : prefix a (a ++ s) = true.
Proof.
  induction a as [| c a IH]; cbn; [now destruct s | ].
  destruct (ascii_dec c c); [exact IH | contradiction].
Qed.

(** X23.  The person id of the real client is always a person URN.  An id
    that starts with "urn:li:person:" is kept, any other gets that prefix,
    the empty one included; an argument that is missing or empty falls back
    to the configured value; and construction fails exactly when that leaves
    no id at all. *)
Theorem client_person_id_is_urn (access_token person_id : option string)
    (LINKEDIN_ACCESS_TOKEN LINKEDIN_PERSON_ID : option string) :
  match
    LinkedInAPI.__init__ access_token person_id
      LINKEDIN_ACCESS_TOKEN LINKEDIN_PERSON_ID
  with
  | Some client =>
      prefix "urn:li:person:" (LinkedInAPI.person_id client) = true
      /\ exists given,
           LinkedInAPI.or_else person_id LINKEDIN_PERSON_ID = Some given
           /\ (prefix "urn:li:person:" given = true ->
               LinkedInAPI.person_id client = given)
           /\ (prefix "urn:li:person:" given = false ->
               LinkedInAPI.person_id client = "urn:li:person:" ++ given)
  | None =>
      (person_id = None \/ person_id = Some "") /\ LINKEDIN_PERSON_ID = None
  end.
Proof.
  unfold LinkedInAPI.__init__.
  destruct (LinkedInAPI.or_else person_id LINKEDIN_PERSON_ID) as [given | ]
    eqn:E.
  - cbn [LinkedInAPI.person_id]. unfold LinkedInAPI.urn_prefix.
    destruct (prefix "urn:li:person:" given) eqn:P; cbn [negb].
    + split; [exact P | ]. exists given.
      split; [reflexivity | split; intros H; [reflexivity | congruence]].
    + split; [apply prefix_of_append | ]. exists given.
      split; [reflexivity | split; intros H; [congruence | reflexivity]].
  - unfold LinkedInAPI.or_else in E.
    destruct person_id as [[| c s] | ]; cbn in E.
    + split; [now right | exact E].
    + discriminate E.
    + split; [now left | exact E].
Qed.

(* ================================================================== *)
(** ** Auto-approve runs *)

Lemma no_io_refl (w : World) : no_io w w.
Proof. split; reflexivity. Qed.

Lemma no_io_trans (a b c : World) : no_io a b -> no_io b c -> no_io a c.
Proof. intros [C1 A1] [C2 A2]. split; congruence. Qed.

Lemma now_no_io (env : Env) : always no_io (Effects.now env).
Proof. intros w. split; reflexivity. Qed.

Lemma storage_do_no_io (f : Files -> Files) :
  always no_io (Effects.storage_do f).
Proof. intros w. split; reflexivity. Qed.

(** [post_content] makes its one call first and none after. *)
Lemma post_content_one_call (env : Env) (content : string) (day : Z)
    (topic : string) (w : World) :
  let w' := snd (LinkedInPosterNode.post_content env content day topic w) in
  console w' = console w /\ api_calls w' = S (api_calls w).
Proof.
  cbv zeta. unfold LinkedInPosterNode.post_content.
  unfold bind at 1. unfold Effects.api_post at 1. cbv beta iota.
  match goal with
  | |- context [snd (?k ?w1)] =>
      assert (H : always no_io k); [ | specialize (H w1); destruct H as [C A]]
  end.
  - destruct (api_success _); [ | apply (always_ret _ no_io_refl)].
    repeat first
      [ apply (always_ret _ no_io_refl)
      | apply now_no_io
      | apply storage_do_no_io
      | apply (always_bind _ no_io_trans); [ | intros ? ] ].
  - cbn [console api_calls] in C, A. split; assumption.
Qed.

(** One pass of the publisher: at most one publishing call, whatever the
    decision, and nothing read from the console. *)
Lemma poster_at_most_one_call (env : Env) (state : AgentState) (w : World) :
  let w' := snd (LinkedInPosterNode.__call__ env state w) in
  console w' = console w
  /\ (api_calls w <= api_calls w' <= api_calls w + 1)%nat.
Proof.
  cbv zeta. unfold LinkedInPosterNode.__call__.
  repeat match goal with
         | |- context [if ?b then _ else _] => destruct b
         end;
    unfold bind, LinkedInPosterNode.item, LinkedInPosterNode.handle_skip,
      bind, ret, raise, Effects.storage_do;
    repeat match goal with
           | |- context [match LinkedInPosterNode.get_field ?r ?f with
                         | _ => _ end] =>
               destruct (LinkedInPosterNode.get_field r f)
           end;
    try (cbn; split; [reflexivity | lia]).
  match goal with
  | |- context [LinkedInPosterNode.post_content ?e ?c ?d ?t ?v] =>
      pose proof (post_content_one_call e c d t v) as H;
      destruct (LinkedInPosterNode.post_content e c d t v) as [[r | x] w2]
  end; cbv zeta in H; cbn [snd] in *; destruct H as [C A];
    (split; [exact C | lia]).
Qed.

Lemma generator_stays_unattended (env : Env) (state : AgentState) :
  unattended state ->
  ensures unattended (ContentGeneratorNode.__call__ env state).
Proof.
  intros H. unfold ContentGeneratorNode.__call__.
  apply ensures_bind; intros stored.
  apply ensures_bind; intros result.
  now apply ensures_ret.
Qed.

(** In an auto-approve run the approval node asks nothing: it returns in
    the world it was called in, with a decision that is not a rejection. *)
Lemma approval_unattended (env : Env) (state : AgentState) (w : World) :
  unattended state ->
  exists state',
    ApprovalHandlerNode.__call__ env state w = (Returns state', w)
    /\ unattended state'
    /\ decision_seen state' <> Some "reject".
Proof.
  intros [Hauto Hflag]. unfold ApprovalHandlerNode.__call__.
  destruct (s_generated_content state) as [[error dup | d] | ].
  - eexists. split; [reflexivity | ]. split; [now split | discriminate].
  - rewrite Hauto. cbn [truthy_flag]. eexists. split; [reflexivity | ].
    split; [now split | discriminate].
  - eexists. split; [reflexivity | ]. split; [now split | discriminate].
Qed.

(** X9.  An auto-approve run is unattended and publishes at most once.
    Whatever the model and the publishing client do, and for every recursion
    limit, a run with [auto_approve] set reads nothing from the console and
    makes at most one publishing call. *)
Theorem auto_run_is_unattended (env : Env) (limit : nat) (day : option Z)
    (w : World) :
  let w' := snd (LinkedInPostingAgent.run env limit day true w) in
  console w' = console w
  /\ (api_calls w <= api_calls w' <= api_calls w + 1)%nat.
Proof.
  cbv zeta. unfold LinkedInPostingAgent.run.
  assert (Hfrom : forall d,
            one_call_at_most w
              (snd (LinkedInPostingAgent.invoke_from env limit generate_content
                      (LinkedInPostingAgent.initial_state d true) w))).
  { intros d.
    assert (J0 : unattended (LinkedInPostingAgent.initial_state d true))
      by (split; reflexivity).
    revert J0. generalize (LinkedInPostingAgent.initial_state d true) as s0.
    intros s0 J0.
    destruct limit as [| l1]; [split; [reflexivity | cbn; lia] | ].
    cbn [LinkedInPostingAgent.invoke_from LinkedInPostingAgent.node].
    unfold bind at 1.
    pose proof (generation_is_read_only_nodes env s0 w) as [_ [C1 [A1 _]]].
    pose proof (generator_stays_unattended env s0 J0 w) as J1.
    destruct (ContentGeneratorNode.__call__ env s0 w) as [[s1 | e] w1];
      cbv beta iota; cbn [snd] in *; [ | split; [exact C1 | lia]].
    specialize (J1 s1 w1 eq_refl).
    destruct (LinkedInPostingAgent.next generate_content s1) as [n1 | ] eqn:N1;
      [ | split; [exact C1 | cbn [snd ret]; lia]].
    assert (n1 = get_approval) as ->.
    { unfold LinkedInPostingAgent.next in N1.
      destruct (_ =? _)%string in N1; [congruence | discriminate]. }
    destruct l1 as [| l2]; [split; [exact C1 | cbn; lia] | ].
    cbn [LinkedInPostingAgent.invoke_from LinkedInPostingAgent.node].
    unfold bind at 1.
    destruct (approval_unattended env s1 w1 J1) as [s2 [E2 [J2 D2]]].
    rewrite E2. cbv beta iota.
    change (LinkedInPostingAgent.next get_approval s2)
      with (Some post_to_linkedin).
    destruct l2 as [| l3]; [split; [exact C1 | cbn; lia] | ].
    cbn [LinkedInPostingAgent.invoke_from LinkedInPostingAgent.node].
    unfold bind at 1.
    pose proof (poster_at_most_one_call env s2 w1) as [C3 A3].
    pose proof (poster_flag env s2 w1) as F3.
    destruct (LinkedInPosterNode.__call__ env s2 w1) as [[s3 | e] w3];
      cbv beta iota; cbn [snd] in *; [ | split; [congruence | lia]].
    specialize (F3 s3 w3 eq_refl). rewrite not_reject_match in F3 by exact D2.
    destruct J2 as [_ J2]. rewrite J2 in F3.
    unfold LinkedInPostingAgent.next, LinkedInPostingAgent._route_after_posting.
    rewrite F3. cbn. split; [congruence | lia]. }
  unfold bind at 1.
  destruct day as [d | ]; [unfold ret at 1 | unfold Effects.storage_get at 1];
    exact (Hfrom _).
Qed.

(* ================================================================== *)
(** ** The properties above at concrete inputs *)

(** Two rate limits, then an answer: three calls and 30 + 60 seconds. *)
Lemma invoke_with_retry_witness :
  ContentGeneratorNode._invoke_with_retry Cases.limited_env [] 3
    (Scenario.world Scenario.fresh [])
  = (Returns "A story. #AI",
     waited (Scenario.world Scenario.fresh []) 3 90).
Proof.
  assert (Hlimited : limited_first Cases.limited_env []
                       (Scenario.world Scenario.fresh []) 2).
  { intros [| [| i]] Hi; [ | | lia];
      (eexists; split; [reflexivity | vm_compute; reflexivity]). }
  apply (proj1 (proj2
           (invoke_with_retry_by_replies Cases.limited_env [] 3 2
              (Scenario.world Scenario.fresh []) Hlimited)));
    [lia | reflexivity].
Defined.

(** The draft for day 1 of a fresh store. *)
Lemma generate_post_draft_witness :
  d_day Cases.story = 1
  /\ d_char_count Cases.story = PyStr.len (d_content Cases.story)
  /\ StorageManager.is_day_posted Scenario.fresh 1 = false.
Proof.
  destruct (generate_post_draft_shape Scenario.mock_env 1
              (Scenario.world Scenario.fresh [])
              {| files := Scenario.fresh; console := []; llm_calls := 1;
                 api_calls := 0; clock_reads := 0; slept := 0 |}
              Cases.story eq_refl)
    as [Hday [_ [Hcount [Hposted _]]]].
  split; [exact Hday | split; [exact Hcount | exact Hposted]].
Defined.


(** The publisher on a recorded rejection. *)
Lemma publisher_reject_witness :
  exists state',
    LinkedInPosterNode.__call__ Scenario.mock_env Cases.rejected
      (Scenario.world Scenario.fresh [])
    = (Returns state', Scenario.world Scenario.fresh [])
    /\ s_needs_regeneration state' = Some true
    /\ s_regenerate_feedback state' = Some "more examples".
Proof.
  destruct (publisher_without_effect Scenario.mock_env Cases.rejected
              (Scenario.world Scenario.fresh []) "reject" eq_refl)
    as [state' [Hcall [Hreject _]]].
  - split; discriminate.
  - exists state'. split; [exact Hcall | ].
    destruct (Hreject eq_refl) as [Hflag [_ [Hfeedback _]]].
    split; [exact Hflag | exact Hfeedback].
Defined.

(** The mock client publishes day 1 from a fresh store. *)
Lemma post_content_records_witness :
  exists post_id posted_at is_mock w' item,
    LinkedInPosterNode.post_content Scenario.mock_env "A story. #AI" 1
      "What is AI?" (Scenario.world Scenario.fresh [])
    = (Returns (Posted post_id 1 "What is AI?" posted_at is_mock), w')
    /\ post_id = "mock_post_1"
    /\ posted_items (history_file (files w')) = [item]
    /\ p_char_count item = 12
    /\ StorageManager.get_current_day (files w') = 2.
Proof.
  destruct (post_content_records_once Scenario.mock_env "A story. #AI" 1
              "What is AI?" (Scenario.world Scenario.fresh []) eq_refl)
    as [post_id [posted_at [is_mock [w' [item H]]]]].
  destruct H
    as [Hcall [Hid [Hitems [_ [_ [_ [_ [Hcount [_ [_ [_ [_ [Hday _]]]]]]]]]]]]].
  exists post_id, posted_at, is_mock, w', item.
  split; [exact Hcall | ]. split; [exact Hid | ].
  split; [exact Hitems | ]. split; [ | exact Hday].
  rewrite Hcount. reflexivity.
Defined.

(** After that publish, day 1 is refused as a duplicate. *)
Lemma published_day_witness :
  StorageManager.is_day_posted
    (files
       (snd (LinkedInPosterNode.post_content Scenario.mock_env "A story. #AI"
               1 "What is AI?" (Scenario.world Scenario.fresh []))))
    1
  = true.
Proof.
  exact (proj1
           (published_day_is_refused Scenario.mock_env Scenario.mock_env
              "A story. #AI" 1 "What is AI?"
              (Scenario.world Scenario.fresh []) eq_refl)).
Defined.

(** A fresh store is sound, and so is the store a run leaves. *)
Lemma run_keeps_store_sound_witness :
  store_sound Scenario.fresh
  /\ store_sound
       (files
          (snd (LinkedInPostingAgent.run Scenario.mock_env 25 None false
                  (Scenario.world Scenario.fresh
                     Scenario.reject_then_approve)))).
Proof.
  assert (Hsound : store_sound Scenario.fresh).
  { split; [split; cbn; [congruence | discriminate] | ].
    split; [split; [reflexivity | constructor] | ].
    unfold day_in_range. cbn. lia. }
  split; [exact Hsound | ].
  exact (run_keeps_store_sound Scenario.mock_env 25 None false
           (Scenario.world Scenario.fresh Scenario.reject_then_approve)
           Hsound).
Defined.


